(** * image.py: a screenshot query against a hosted vision model

    The script reads one image file, base64-encodes it, submits a single
    chat-completion request and prints the first choice's content.  This
    file embeds the script (module body and [analyze_image]) over an
    explicit model of the file system, the remote service and standard
    output, and proves the properties of its specification. *)

From Stdlib Require Import NArith Strings.Byte Ascii String List Lia.
From stdpp Require Import gmap strings list.
Import ListNotations.

Local Open Scope N_scope.
Local Open Scope list_scope.

(** ** Bytes and text *)

(** Python [bytes] are lists of [byte]; a Python [str] is represented by
    its UTF-8 encoding held in a Rocq [string]. *)

Module Base64.

(** The alphabet table of [base64.b64encode] (RFC 4648, section 4). *)
Definition b64_alphabet : list byte :=
  list_byte_of_string
    "ABCDEFGHIJKLMNOPQRSTUVWXYZabcdefghijklmnopqrstuvwxyz0123456789+/".

Definition b64_pad : byte := "="%byte.

Definition enc_sextet (n : N) : byte := nth (N.to_nat n) b64_alphabet b64_pad.

Fixpoint index_of (c : byte) (tbl : list byte) (i : N) : option N :=
  match tbl with
  | [] => None
  | x :: tbl' => if Byte.eqb c x then Some i else index_of c tbl' (N.succ i)
  end.

Definition dec_sextet (c : byte) : option N := index_of c b64_alphabet 0.

(** The four 6-bit groups of a 24-bit input group. *)
Definition s0 (a : N) : N := N.shiftr a 2.
Definition s1 (a b : N) : N := N.lor (N.shiftl (N.land a 3) 4) (N.shiftr b 4).
Definition s2 (b c : N) : N := N.lor (N.shiftl (N.land b 15) 2) (N.shiftr c 6).
Definition s3 (c : N) : N := N.land c 63.

(** The three octets of four 6-bit groups. *)
Definition o0 (v0 v1 : N) : N := N.lor (N.shiftl v0 2) (N.shiftr v1 4).
Definition o1 (v1 v2 : N) : N := N.lor (N.shiftl (N.land v1 15) 4) (N.shiftr v2 2).
Definition o2 (v2 v3 : N) : N := N.lor (N.shiftl (N.land v2 3) 6) v3.

(** [base64.b64encode]: three input bytes give four characters; a final
    group of one or two bytes is zero-filled and padded with [=]. *)
Fixpoint b64encode (bs : list byte) : list byte :=
  match bs with
  | [] => []
  | [a] =>
      let a := Byte.to_N a in
      [enc_sextet (s0 a); enc_sextet (s1 a 0); b64_pad; b64_pad]
  | [a; b] =>
      let a := Byte.to_N a in
      let b := Byte.to_N b in
      [enc_sextet (s0 a); enc_sextet (s1 a b); enc_sextet (s2 b 0); b64_pad]
  | a :: b :: c :: rest =>
      let a := Byte.to_N a in
      let b := Byte.to_N b in
      let c := Byte.to_N c in
      enc_sextet (s0 a) :: enc_sextet (s1 a b) :: enc_sextet (s2 b c)
        :: enc_sextet (s3 c) :: b64encode rest
  end.

Definition octets (ns : list N) : option (list byte) :=
  mapM Byte.of_N ns.

(** [base64.b64decode] on canonical input: groups of four characters,
    padding only in the last group. *)
Fixpoint b64decode (cs : list byte) : option (list byte) :=
  match cs with
  | [] => Some []
  | c0 :: c1 :: c2 :: c3 :: rest =>
      match dec_sextet c0, dec_sextet c1 with
      | Some v0, Some v1 =>
          if Byte.eqb c2 b64_pad then
            if Byte.eqb c3 b64_pad then
              match rest with
              | [] => octets [o0 v0 v1]
              | _ :: _ => None
              end
            else None
          else
            match dec_sextet c2 with
            | Some v2 =>
                if Byte.eqb c3 b64_pad then
                  match rest with
                  | [] => octets [o0 v0 v1; o1 v1 v2]
                  | _ :: _ => None
                  end
                else
                  match dec_sextet c3, b64decode rest with
                  | Some v3, Some tl =>
                      match octets [o0 v0 v1; o1 v1 v2; o2 v2 v3] with
                      | Some hd => Some (hd ++ tl)
                      | None => None
                      end
                  | _, _ => None
                  end
            | None => None
            end
      | _, _ => None
      end
  | _ => None
  end.

End Base64.

Module Utf8.

Definition in_range (lo hi n : N) : bool := (lo <=? n) && (n <=? hi).

Definition is_ascii (b : byte) : bool := Byte.to_N b <? 0x80.

Definition is_cont (b : byte) : bool := in_range 0x80 0xBF (Byte.to_N b).

(** Well-formed UTF-8 byte sequences (Unicode, table 3-7). *)
Fixpoint utf8_valid (bs : list byte) : bool :=
  match bs with
  | [] => true
  | b0 :: t0 =>
      let n0 := Byte.to_N b0 in
      if n0 <? 0x80 then utf8_valid t0
      else if in_range 0xC2 0xDF n0 then
        match t0 with
        | b1 :: t1 => is_cont b1 && utf8_valid t1
        | _ => false
        end
      else if in_range 0xE0 0xEF n0 then
        match t0 with
        | b1 :: b2 :: t2 =>
            let n1 := Byte.to_N b1 in
            (if n0 =? 0xE0 then in_range 0xA0 0xBF n1
             else if n0 =? 0xED then in_range 0x80 0x9F n1
             else in_range 0x80 0xBF n1)
            && is_cont b2 && utf8_valid t2
        | _ => false
        end
      else if in_range 0xF0 0xF4 n0 then
        match t0 with
        | b1 :: b2 :: b3 :: t3 =>
            let n1 := Byte.to_N b1 in
            (if n0 =? 0xF0 then in_range 0x90 0xBF n1
             else if n0 =? 0xF4 then in_range 0x80 0x8F n1
             else in_range 0x80 0xBF n1)
            && is_cont b2 && is_cont b3 && utf8_valid t3
        | _ => false
        end
      else false
  end.

End Utf8.

(** ** Python objects, exceptions and effects *)

(** Objects a module namespace holds in this script. *)
Inductive value :=
| VStr (s : string)
| VModule (name : string)
| VBuiltin (name : string)
| VFunction (default : value).

#[local] Set Warnings "-register-all".

(** Objects a response is made of: attribute-carrying objects, lists,
    strings and [None]. *)
Inductive pyval :=
| PNone
| PStr (s : string)
| PList (items : list pyval)
| PObj (attrs : list (string * pyval)).

Inductive os_error := FileNotFound | PermissionDenied | IsADirectory | IOFailure.

(** What [open] raises: an [OSError], or [ValueError] for a path that is
    no file name at all (it holds a NUL character). *)
Inductive open_error :=
| OSErr (e : os_error)
| InvalidPath.

Inductive api_failure := RateLimit | BadRequest | Timeout | Connection | ServerFault.

Inductive exn :=
| NameError (name : string)
| ModuleNotFoundError (name : string)
| OpenAIError
| OSError (e : os_error)
| ValueError
| UnicodeDecodeError
| UnicodeEncodeError
| AuthenticationError
| APIError (k : api_failure)
| IndexError
| AttributeError (attr : string)
| TypeError.

Definition open_exn (e : open_error) : exn :=
  match e with
  | OSErr e => OSError e
  | InvalidPath => ValueError
  end.

(** Failures of one HTTP request that the client sends again: rate
    limiting, timeouts, connection failures and server faults.  A
    rejected credential and a malformed request are final. *)
Definition retryable (e : exn) : bool :=
  match e with
  | APIError RateLimit | APIError Timeout | APIError Connection
  | APIError ServerFault => true
  | _ => false
  end.

(** The error taxonomy of the specification. *)
Inductive error_class :=
| FileAccess | Authentication | Service | ResponseShape | Other.

Definition classify (e : exn) : error_class :=
  match e with
  | OSError _ => FileAccess
  | AuthenticationError => Authentication
  | APIError _ => Service
  | IndexError | AttributeError _ | TypeError => ResponseShape
  | NameError _ | ModuleNotFoundError _ | OpenAIError | ValueError
  | UnicodeDecodeError | UnicodeEncodeError => Other
  end.

(** The request payload: the keyword arguments of
    [client.chat.completions.create]. *)
Inductive content_part :=
| TextPart (text : string)        (* {"type": "text", "text": ...} *)
| ImageUrlPart (url : string).    (* {"type": "image_url", "image_url": {"url": ...}} *)

Record message := { role : string; content : list content_part }.

Record request := { model : string; messages : list message }.

Record client := { client_key : value }.

(** What a path names: [open] fails, [open] succeeds and [read] fails, or
    a regular readable file. *)
Inductive file_node :=
| NoOpen (e : open_error)
| NoRead (e : os_error)
| Regular (data : list byte).

(** Everything outside the script: the file system, the interpreter's
    builtin names and installed modules, the client library's check of
    the credential, the remote service's answer to each HTTP request of a
    call (numbered from 0), the texts the encoding of standard output can
    take, and the text form of objects that are not strings. *)
Record world := {
  fs : string -> file_node;
  builtin : gset string;
  installed : string -> bool;
  client_error : value -> option exn;
  remote : value -> request -> nat -> exn + pyval;
  stdout_encodes : string -> bool;
  obj_str : pyval -> string
}.

(** The steps of a run, in program order.  [EvBuild] marks the point at
    which the arguments of the [create] call, and with them the request
    payload, have been evaluated; there is one [EvRequest] for every HTTP
    request the client sends. *)
Inductive event :=
| EvClient (key : value)                  (* openai.OpenAI(api_key=key) *)
| EvOpen (path : string) (ok : bool)      (* open(path, "rb") *)
| EvRead                                  (* image_file.read() *)
| EvClose                                 (* leaving the with block *)
| EvBuild (req : request)                 (* the call's arguments are evaluated *)
| EvRequest (key : value) (req : request) (* one HTTP request is sent *)
| EvPrint (text : string).                (* text written to standard output *)

Record state := { globals : gmap string value; trace : list event }.

Inductive result (A : Type) :=
| Return (a : A)
| Raise (e : exn).
Arguments Return {A} a.
Arguments Raise {A} e.

Definition Py (A : Type) : Type := state -> state * result A.

Definition ret {A} (a : A) : Py A := fun st => (st, Return a).

Definition raise {A} (e : exn) : Py A := fun st => (st, Raise e).

Definition bind {A B} (m : Py A) (k : A -> Py B) : Py B :=
  fun st =>
    match m st with
    | (st', Return a) => k a st'
    | (st', Raise e) => (st', Raise e)
    end.

Notation "'let!' x ':=' m 'in' k" := (bind m (fun x => k))
  (at level 10, x name, m at level 100, k at level 200).
Notation "m ';;;' k" := (bind m (fun _ => k))
  (at level 100, k at level 200, right associativity).

(** Pure evaluation that may raise, and its use as a statement. *)
Definition rbind {A B} (r : result A) (k : A -> result B) : result B :=
  match r with
  | Return a => k a
  | Raise e => Raise e
  end.

Definition lift {A} (r : result A) : Py A := fun st => (st, r).

(** The state after further events. *)
Definition extend (st : state) (evs : list event) : state :=
  {| globals := globals st; trace := trace st ++ evs |}.

Definition emit (e : event) : Py unit :=
  fun st => (extend st [e], Return tt).

(** [try: body finally: fin] -- [fin] runs on both exits of [body]; an
    exception of [body] is re-raised after it. *)
Definition try_finally {A} (body : Py A) (fin : Py unit) : Py A :=
  fun st =>
    match body st with
    | (st1, r) =>
        match fin st1 with
        | (st2, Return _) => (st2, r)
        | (st2, Raise e) => (st2, Raise e)
        end
    end.

Definition store_name (x : string) (v : value) : Py unit :=
  fun st => ({| globals := <[x := v]> (globals st); trace := trace st |}, Return tt).

(** ** The interpreter's primitives, over a world *)

Section Primitives.

Variable w : world.

(** Name lookup at module level: globals, then builtins. *)
Definition load_name (x : string) : Py value :=
  fun st =>
    match globals st !! x with
    | Some v => (st, Return v)
    | None =>
        if decide (x ∈ builtin w) then (st, Return (VBuiltin x))
        else (st, Raise (NameError x))
    end.

(** [import m]: binds the module object to its name, or raises when no
    such module is installed. *)
Definition import_module (m : string) : Py unit :=
  if installed w m then store_name m (VModule m)
  else raise (ModuleNotFoundError m).

(** [openai.OpenAI(api_key=key)]: the constructor checks the credential
    it is given (a missing or empty one is refused) and keeps it; it
    makes no network call. *)
Definition OpenAI (key : value) : Py client :=
  emit (EvClient key) ;;;
  match client_error w key with
  | Some e => raise e
  | None => ret {| client_key := key |}
  end.

(** [with open(path, "rb") as f: body f]. *)
Definition with_open {A} (path : string) (body : file_node -> Py A) : Py A :=
  match fs w path with
  | NoOpen e => emit (EvOpen path false) ;;; raise (open_exn e)
  | node => emit (EvOpen path true) ;;; try_finally (body node) (emit EvClose)
  end.

(** [f.read()]. *)
Definition file_read (f : file_node) : Py (list byte) :=
  emit EvRead ;;;
  match f with
  | Regular data => ret data
  | NoRead e => raise (OSError e)
  | NoOpen e => raise (open_exn e)
  end.

(** [bs.decode('utf-8')]. *)
Definition bytes_decode (bs : list byte) : Py string :=
  if Utf8.utf8_valid bs then ret (string_of_list_byte bs)
  else raise UnicodeDecodeError.

(** The client is built with its default retry policy: a request that
    fails retryably is sent again, at most twice. *)
Definition max_retries : nat := 2.

(** One HTTP request and, on a retryable failure, the next ones. *)
Fixpoint send (key : value) (req : request) (attempt retries : nat)
  : Py pyval :=
  emit (EvRequest key req) ;;;
  match remote w key req attempt with
  | inr response => ret response
  | inl e =>
      match retries with
      | S retries' =>
          if retryable e then send key req (S attempt) retries' else raise e
      | O => raise e
      end
  end.

(** [client.chat.completions.create(model=..., messages=...)]. *)
Definition chat_completions_create (c : client) (req : request) : Py pyval :=
  send (client_key c) req 0 max_retries.

Fixpoint assoc (x : string) (l : list (string * pyval)) : option pyval :=
  match l with
  | [] => None
  | (y, v) :: l' => if String.eqb x y then Some v else assoc x l'
  end.

(** [obj.name]. *)
Definition py_getattr (obj : pyval) (name : string) : result pyval :=
  match obj with
  | PObj attrs =>
      match assoc name attrs with
      | Some v => Return v
      | None => Raise (AttributeError name)
      end
  | _ => Raise (AttributeError name)
  end.

(** Length in bytes of the code point that starts with byte [b]. *)
Definition utf8_width (b : ascii) : nat :=
  let n := N_of_ascii b in
  if n <? 0x80 then 1%nat
  else if n <? 0xE0 then 2%nat
  else if n <? 0xF0 then 3%nat
  else 4%nat.

(** [obj[0]]. *)
Definition py_getitem0 (obj : pyval) : result pyval :=
  match obj with
  | PList (x :: _) => Return x
  | PList [] => Raise IndexError
  | PStr (String c _ as s) => Return (PStr (substring 0 (utf8_width c) s))
  | PStr EmptyString => Raise IndexError
  | PNone | PObj _ => Raise TypeError
  end.

(** The expression [response.choices[0].message.content]. *)
Definition response_content (response : pyval) : result pyval :=
  rbind (py_getattr response "choices") (fun choices =>
  rbind (py_getitem0 choices) (fun choice =>
  rbind (py_getattr choice "message") (fun message =>
  py_getattr message "content"))).

(** [str(obj)]. *)
Definition py_str (obj : pyval) : string :=
  match obj with
  | PStr s => s
  | PNone => "None"
  | _ => obj_str w obj
  end.

Definition LF : string := String (ascii_of_N 10) EmptyString.

Definition ascii_text (s : string) : bool :=
  forallb Utf8.is_ascii (list_byte_of_string s).

(** Whether standard output can encode a text: ASCII text always, other
    text as the stream's encoding allows. *)
Definition stdout_accepts (text : string) : bool :=
  ascii_text text || stdout_encodes w text.

(** [print(obj)]: the text of [obj], then a newline; a text the stream
    cannot encode raises and nothing is written. *)
Definition print (obj : pyval) : Py unit :=
  let text := py_str obj +:+ LF in
  if stdout_accepts text then emit (EvPrint text)
  else raise UnicodeEncodeError.

(** ** analyze_image *)

Definition data_uri (base64_image : string) : string :=
  "data:image/jpeg;base64," +:+ base64_image.

Definition build_request (text_prompt base64_image : string) : request :=
  {| model := "gpt-4.1-mini-2025-04-14";
     messages :=
       [ {| role := "user";
            content :=
              [ TextPart text_prompt;
                ImageUrlPart (data_uri base64_image) ] |} ] |}.

Definition analyze_image (image_path text_prompt : string) (api_key : value)
  : Py unit :=
  let! client := OpenAI api_key in
  let! base64_image :=
    with_open image_path (fun image_file =>
      let! data := file_read image_file in
      bytes_decode (Base64.b64encode data)) in
  let req := build_request text_prompt base64_image in
  emit (EvBuild req) ;;;
  let! response := chat_completions_create client req in
  let! content := lift (response_content response) in
  print content.

End Primitives.

(** ** The module body *)

Section Script.

Variable w : world.

Definition target : string := "submit text button".

(** The f-string bound to [quadrant_input]. *)
Definition quadrant_input (target : string) : string :=
  "
<task>
Identify which numbered section contains the " +:+ target +:+ " in the provided image.
</task>

<instructions>
1. Locate your target: the " +:+ target +:+ " in the image
2. Determine which red-numbered section it primarily occupies
3. If the input field spans multiple sections, choose the section that contains the center/majority of the target
4. Look specifically for text input elements like search bars, text boxes, or prompt input areas
</instructions>

<format>
Return only the section number (1-40) that best represents the location of the text input field.
</format>
".

(** Calling the object bound to [analyze_image] with two positional
    arguments: the third parameter takes the default stored at the
    definition. *)
Definition call2 (f : value) (image_path text_prompt : string) : Py unit :=
  match f with
  | VFunction default => analyze_image w image_path text_prompt default
  | _ => raise TypeError
  end.

(** The statements of image.py in order.  A [def] evaluates its
    default-argument expressions when it is executed; names the module
    has itself just bound ([target], [quadrant_input]) are read back
    as the values stored. *)
Definition image_py : Py unit :=
  import_module w "openai" ;;;
  import_module w "base64" ;;;
  let! default_key := load_name w "OPENAI_API_KEY" in
  store_name "analyze_image" (VFunction default_key) ;;;
  store_name "target" (VStr target) ;;;
  store_name "quadrant_input" (VStr (quadrant_input target)) ;;;
  let! f := load_name w "analyze_image" in
  call2 f "claude-2-result-2.png" (quadrant_input target).

(** One program run from an initial global namespace. *)
Definition run_script (g0 : gmap string value) : state * result unit :=
  image_py {| globals := g0; trace := [] |}.

End Script.

(** The namespace of a module run as [python image.py]. *)
Definition main_globals : gmap string value :=
  <["__name__" := VStr "__main__"]>
    (<["__file__" := VStr "image.py"]>
       (<["__builtins__" := VModule "builtins"]> ∅)).

(** ** Observations on traces *)

Fixpoint requests_of (t : list event) : list request :=
  match t with
  | [] => []
  | EvRequest _ req :: t' => req :: requests_of t'
  | _ :: t' => requests_of t'
  end.

Fixpoint payloads_of (t : list event) : list request :=
  match t with
  | [] => []
  | EvBuild req :: t' => req :: payloads_of t'
  | _ :: t' => payloads_of t'
  end.

Fixpoint stdout_of (t : list event) : string :=
  match t with
  | [] => ""
  | EvPrint text :: t' => text +:+ stdout_of t'
  | _ :: t' => stdout_of t'
  end.

Fixpoint prints_of (t : list event) : nat :=
  match t with
  | [] => 0%nat
  | EvPrint _ :: t' => S (prints_of t')
  | _ :: t' => prints_of t'
  end.

(** File handles open after a trace. *)
Fixpoint handles_open (n : nat) (t : list event) : nat :=
  match t with
  | [] => n
  | EvOpen _ true :: t' => handles_open (S n) t'
  | EvClose :: t' => handles_open (Nat.pred n) t'
  | _ :: t' => handles_open n t'
  end.

Definition is_newline (c : ascii) : bool := Ascii.eqb c (ascii_of_N 10).

(** The lines of an output text; each newline ends a line. *)
Fixpoint lines (s : string) : list string :=
  match s with
  | EmptyString => []
  | String c s' =>
      if is_newline c then EmptyString :: lines s'
      else
        match lines s' with
        | [] => [String c EmptyString]
        | l :: ls => String c l :: ls
        end
  end.

Fixpoint has_newline (s : string) : bool :=
  match s with
  | EmptyString => false
  | String c s' => is_newline c || has_newline s'
  end.

Definition image_parts (req : request) : list string :=
  flat_map
    (fun m =>
       flat_map
         (fun p => match p with ImageUrlPart url => [url] | TextPart _ => [] end)
         (content m))
    (messages req).

(** The events of a successful file read followed by the request. *)
Definition request_events (path : string) (key : value) (req : request)
  : list event :=
  [EvClient key; EvOpen path true; EvRead; EvClose; EvBuild req;
   EvRequest key req].

(** ** Bounded checks by evaluation *)

Definition below (k : nat) : list N := map N.of_nat (seq 0 k).

Definition all_below (k : nat) (P : N -> bool) : bool := forallb P (below k).

Definition all_below2 (k : nat) (P : N -> N -> bool) : bool :=
  all_below k (fun a => all_below k (P a)).

Definition sextets_ok (a b : N) : bool :=
  (Base64.s0 a <? 64) && (Base64.s1 a b <? 64)
  && (Base64.s2 a b <? 64) && (Base64.s3 a <? 64).

Definition octets_ok (a b : N) : bool :=
  (Base64.o0 (Base64.s0 a) (Base64.s1 a b) =? a)
  && (Base64.o2 (Base64.s2 a b) (Base64.s3 b) =? b)
  && (Base64.o1 (Base64.s1 0 a) (Base64.s2 a b) =? a)
  && (N.land (Base64.s1 a b) 15 =? N.land (Base64.s1 0 b) 15).

Definition sextet_roundtrip (n : N) : bool :=
  match Base64.dec_sextet (Base64.enc_sextet n) with
  | Some m => (m =? n) && negb (Byte.eqb (Base64.enc_sextet n) Base64.b64_pad)
  | None => false
  end.

(** ** Invocations and program runs *)

(** The text [analyze_image] embeds for file contents [data]:
    [base64.b64encode(data).decode('utf-8')]. *)
Definition encoded_payload (data : list byte) : string :=
  string_of_list_byte (Base64.b64encode data).

Definition empty_state : state := {| globals := ∅; trace := [] |}.

(** One invocation of [analyze_image]: its events and its outcome. *)
Definition invoke (w : world) (image_path text_prompt : string) (api_key : value)
  : list event * result unit :=
  match analyze_image w image_path text_prompt api_key empty_state with
  | (st, r) => (trace st, r)
  end.

(** The events of one program run. *)
Definition script_trace (w : world) (g0 : gmap string value) : list event :=
  trace (fst (run_script w g0)).

(** How many HTTP requests a [create] call sends from attempt number
    [attempt] on with [retries] retries left, and how the call ends. *)
Fixpoint attempts (w : world) (key : value) (req : request)
  (attempt retries : nat) : nat * (exn + pyval) :=
  match remote w key req attempt with
  | inr response => (1%nat, inr response)
  | inl e =>
      match retries with
      | S retries' =>
          if retryable e then
            match attempts w key req (S attempt) retries' with
            | (n, out) => (S n, out)
            end
          else (1%nat, inl e)
      | O => (1%nat, inl e)
      end
  end.

Definition create_outcome (w : world) (key : value) (req : request)
  : nat * (exn + pyval) :=
  attempts w key req 0 max_retries.

(** The first HTTP request settles the call: it is answered, or it fails
    with an error the client does not retry. *)
Definition first_attempt_final (w : world) (key : value) (req : request)
  : bool :=
  match remote w key req 0 with
  | inr _ => true
  | inl e => negb (retryable e)
  end.

(** The events up to and including the [n] HTTP requests of the call. *)
Definition call_events (path : string) (key : value) (req : request) (n : nat)
  : list event :=
  [EvClient key; EvOpen path true; EvRead; EvClose; EvBuild req]
  ++ repeat (EvRequest key req) n.

(** No file handle is open at any request of a trace that starts with
    [n] open handles. *)
Fixpoint closed_at_requests (n : nat) (t : list event) : bool :=
  match t with
  | [] => true
  | EvRequest _ _ :: t' => Nat.eqb n 0 && closed_at_requests n t'
  | EvOpen _ true :: t' => closed_at_requests (S n) t'
  | EvClose :: t' => closed_at_requests (Nat.pred n) t'
  | _ :: t' => closed_at_requests n t'
  end.

(** The response's first choice has a message whose content is [c]. *)
Definition first_choice_content (response c : pyval) : Prop :=
  exists attrs cattrs mattrs others,
    response = PObj attrs
    /\ assoc "choices" attrs = Some (PList (PObj cattrs :: others))
    /\ assoc "message" cattrs = Some (PObj mattrs)
    /\ assoc "content" mattrs = Some c.

(** A step of [analyze_image] that raises [e]: building the client,
    opening the file, reading it, the [create] call, the access to the
    response, or the print. *)
Inductive step_raises (w : world) (image_path text_prompt : string)
  (api_key : value) : exn -> Prop :=
| client_raises e :
    client_error w api_key = Some e ->
    step_raises w image_path text_prompt api_key e
| open_raises e :
    client_error w api_key = None ->
    fs w image_path = NoOpen e ->
    step_raises w image_path text_prompt api_key (open_exn e)
| read_raises e :
    client_error w api_key = None ->
    fs w image_path = NoRead e ->
    step_raises w image_path text_prompt api_key (OSError e)
| remote_raises data n e :
    client_error w api_key = None ->
    fs w image_path = Regular data ->
    create_outcome w api_key (build_request text_prompt (encoded_payload data))
      = (n, inl e) ->
    step_raises w image_path text_prompt api_key e
| response_raises data n response e :
    client_error w api_key = None ->
    fs w image_path = Regular data ->
    create_outcome w api_key (build_request text_prompt (encoded_payload data))
      = (n, inr response) ->
    response_content response = Raise e ->
    step_raises w image_path text_prompt api_key e
| print_raises data n response c :
    client_error w api_key = None ->
    fs w image_path = Regular data ->
    create_outcome w api_key (build_request text_prompt (encoded_payload data))
      = (n, inr response) ->
    response_content response = Return c ->
    stdout_accepts w (py_str w c +:+ LF) = false ->
    step_raises w image_path text_prompt api_key UnicodeEncodeError.

(** The namespace once both imports have run. *)
Definition imported (g0 : gmap string value) : gmap string value :=
  <["base64" := VModule "base64"]> (<["openai" := VModule "openai"]> g0).

(** The namespace when the call statement is reached. *)
Definition defined (g0 : gmap string value) (k : value) : gmap string value :=
  <["quadrant_input" := VStr (quadrant_input target)]>
    (<["target" := VStr target]>
       (<["analyze_image" := VFunction k]> (imported g0))).

(** Line breaks in a text. *)
Fixpoint count_newlines (s : string) : nat :=
  match s with
  | EmptyString => 0%nat
  | String c s' =>
      if is_newline c then S (count_newlines s') else count_newlines s'
  end.


(** The file a program run reads. *)
Definition script_image : string := "claude-2-result-2.png".

(** ** Concrete worlds *)

(** The first bytes of a PNG file. *)
Definition png_bytes : list byte := [x89; x50; x4e; x47; x0d; x0a; x1a; x0a].

(** A completion object as the service returns it: the first choice has
    content [s], a second choice follows. *)
Definition completion (s : string) : pyval :=
  PObj [ ("id", PStr "chatcmpl-1");
         ("choices",
          PList [ PObj [ ("index", PStr "0");
                         ("message",
                          PObj [ ("role", PStr "assistant");
                                 ("content", PStr s) ]);
                         ("finish_reason", PStr "stop") ];
                  PObj [ ("index", PStr "1");
                         ("message",
                          PObj [ ("role", PStr "assistant");
                                 ("content", PStr "second choice") ]);
                         ("finish_reason", PStr "stop") ] ]);
         ("model", PStr "gpt-4.1-mini-2025-04-14") ].

(** Names of the interpreter's builtin functions. *)
Definition python_builtins : gset string :=
  list_to_set
    [ "abs"; "aiter"; "all"; "anext"; "any"; "ascii"; "bin"; "bool";
      "breakpoint"; "bytearray"; "bytes"; "callable"; "chr"; "classmethod";
      "compile"; "complex"; "delattr"; "dict"; "dir"; "divmod"; "enumerate";
      "eval"; "exec"; "filter"; "float"; "format"; "frozenset"; "getattr";
      "globals"; "hasattr"; "hash"; "help"; "hex"; "id"; "input"; "int";
      "isinstance"; "issubclass"; "iter"; "len"; "list"; "locals"; "map";
      "max"; "memoryview"; "min"; "next"; "object"; "oct"; "open"; "ord";
      "pow"; "print"; "property"; "range"; "repr"; "reversed"; "round";
      "set"; "setattr"; "slice"; "sorted"; "staticmethod"; "str"; "sum";
      "super"; "tuple"; "type"; "vars"; "zip"; "__import__" ].

Fixpoint has_nul (s : string) : bool :=
  match s with
  | EmptyString => false
  | String c s' => Ascii.eqb c (ascii_of_N 0) || has_nul s'
  end.

(** A machine with one readable file: other paths do not exist, and a
    path holding a NUL is no file name.  Both modules are installed, the
    client refuses the empty key, and standard output is UTF-8. *)
Definition machine (present : string) (data : list byte)
  (service : value -> request -> nat -> exn + pyval) : world :=
  {| fs := fun p =>
             if has_nul p then NoOpen InvalidPath
             else if String.eqb p present then Regular data
             else NoOpen (OSErr FileNotFound);
     builtin := python_builtins;
     installed := fun _ => true;
     client_error := fun k =>
                       match k with
                       | VStr EmptyString => Some OpenAIError
                       | _ => None
                       end;
     remote := service;
     stdout_encodes := fun _ => true;
     obj_str := fun _ => "<object>" |}.

(** A service with one accepted key and one answer. *)
Definition keyed_service (valid_key answer : string)
  : value -> request -> nat -> exn + pyval :=
  fun k _ _ =>
    match k with
    | VStr s =>
        if String.eqb s valid_key then inr (completion answer)
        else inl AuthenticationError
    | _ => inl AuthenticationError
    end.

(** A world with one readable file, one accepted key and one answer. *)
Definition sample_world (present valid_key answer : string) : world :=
  machine present png_bytes (keyed_service valid_key answer).

(** A world with one readable file whose service gives one fixed answer. *)
Definition answering_world (present : string) (data : list byte)
  (answer : exn + pyval) : world :=
  machine present data (fun _ _ _ => answer).

(** A world whose service is rate limited for the first [busy] requests
    of a call and answers [17] afterwards. *)
Definition busy_world (present : string) (busy : nat) : world :=
  machine present png_bytes
    (fun _ _ attempt =>
       if (attempt <? busy)%nat then inl (APIError RateLimit)
       else inr (completion "17")).

Definition two_line_answer : string := "17" +:+ LF +:+ "18".

(** A text with a character outside ASCII (e with acute accent). *)
Definition accented_answer : string :=
  "caf" +:+ String (ascii_of_N 195) (String (ascii_of_N 169) EmptyString).

(** A world as [sample_world] whose standard output is ASCII only. *)
Definition ascii_stdout_world (present valid_key answer : string) : world :=
  {| fs := fs (sample_world present valid_key answer);
     builtin := python_builtins;
     installed := fun _ => true;
     client_error := client_error (sample_world present valid_key answer);
     remote := keyed_service valid_key answer;
     stdout_encodes := fun _ => false;
     obj_str := fun _ => "<object>" |}.


Definition grid_world : world := sample_world "grid.png" "sk-live" "17".

Definition grid_prompt : string :=
  "Identify section 1-40 containing the search bar".

(** A path that is no file name: it holds a NUL character. *)
Definition nul_path : string :=
  "grid" +:+ String (ascii_of_N 0) EmptyString +:+ ".png".

(** The world in which the file the script names exists. *)
Definition script_world : world :=
  sample_world "claude-2-result-2.png" "sk-live" "17".

(** A namespace into which the credential has been injected. *)
Definition configured_globals : gmap string value :=
  <["OPENAI_API_KEY" := VStr "sk-live"]> main_globals.

(** A completion whose message has no text: its content is [None]. *)
Definition none_completion : pyval :=
  PObj [ ("id", PStr "chatcmpl-2");
         ("choices",
          PList [ PObj [ ("message",
                          PObj [ ("role", PStr "assistant");
                                 ("content", PNone) ]) ] ]) ].

(** A completion with no choice at all. *)
Definition empty_completion : list (string * pyval) :=
  [ ("id", PStr "chatcmpl-3"); ("choices", PList []) ].

(** An answer that is an object of another shape. *)
Definition error_body : pyval :=
  PObj [ ("error", PStr "overloaded") ].

(** * Properties *)

Lemma all_below_spec k P :
  all_below k P = true -> forall n, n < N.of_nat k -> P n = true.
Proof.
  unfold all_below, below. rewrite forallb_forall. intros H n Hn.
  apply H. rewrite <- (N2Nat.id n). apply in_map. apply in_seq. lia.
Qed.

Lemma all_below2_spec k P :
  all_below2 k P = true ->
  forall a b, a < N.of_nat k -> b < N.of_nat k -> P a b = true.
Proof.
  intros H a b Ha Hb.
  apply (all_below_spec k (P a)); [|exact Hb].
  apply (all_below_spec k (fun a => all_below k (P a))); assumption.
Qed.

Lemma byte_lt_256 (b : byte) : Byte.to_N b < N.of_nat 256.
Proof. pose proof (Byte.to_N_bounded b). lia. Qed.

Module Base64Facts.
Import Base64.

Lemma sextets_checked : all_below2 256 sextets_ok = true.
Proof. vm_compute. reflexivity. Qed.

Lemma octets_checked : all_below2 256 octets_ok = true.
Proof. vm_compute. reflexivity. Qed.

Lemma sextet_roundtrip_checked : all_below 64 sextet_roundtrip = true.
Proof. vm_compute. reflexivity. Qed.

Lemma sextets_lt (a b : byte) :
  s0 (Byte.to_N a) < 64 /\ s1 (Byte.to_N a) (Byte.to_N b) < 64
  /\ s2 (Byte.to_N a) (Byte.to_N b) < 64 /\ s3 (Byte.to_N a) < 64.
Proof.
  pose proof (all_below2_spec _ _ sextets_checked _ _
                (byte_lt_256 a) (byte_lt_256 b)) as H.
  unfold sextets_ok in H.
  repeat (apply andb_prop in H; destruct H as [H ?]).
  repeat split; apply N.ltb_lt; assumption.
Qed.

Lemma s1_zero_lt (a : byte) : s1 (Byte.to_N a) 0 < 64.
Proof.
  change 0 with (Byte.to_N x00). apply (sextets_lt a x00).
Qed.

Lemma s2_zero_lt (a : byte) : s2 (Byte.to_N a) 0 < 64.
Proof.
  change 0 with (Byte.to_N x00). apply (sextets_lt a x00).
Qed.

Lemma octets_eq (a b : byte) :
  o0 (s0 (Byte.to_N a)) (s1 (Byte.to_N a) (Byte.to_N b)) = Byte.to_N a
  /\ o2 (s2 (Byte.to_N a) (Byte.to_N b)) (s3 (Byte.to_N b)) = Byte.to_N b
  /\ o1 (s1 0 (Byte.to_N a)) (s2 (Byte.to_N a) (Byte.to_N b)) = Byte.to_N a
  /\ N.land (s1 (Byte.to_N a) (Byte.to_N b)) 15
     = N.land (s1 0 (Byte.to_N b)) 15.
Proof.
  pose proof (all_below2_spec _ _ octets_checked _ _
                (byte_lt_256 a) (byte_lt_256 b)) as H.
  unfold octets_ok in H.
  repeat (apply andb_prop in H; destruct H as [H ?]).
  repeat split; apply N.eqb_eq; assumption.
Qed.

(** The middle octet only needs the low four bits of the second sextet. *)
Lemma o1_middle (a b c : byte) :
  o1 (s1 (Byte.to_N a) (Byte.to_N b)) (s2 (Byte.to_N b) (Byte.to_N c))
  = Byte.to_N b.
Proof.
  destruct (octets_eq a b) as (_ & _ & _ & Hlow).
  destruct (octets_eq b c) as (_ & _ & Hmid & _).
  unfold o1 in *. rewrite Hlow. exact Hmid.
Qed.

Lemma dec_enc n :
  n < 64 -> dec_sextet (enc_sextet n) = Some n.
Proof.
  intros Hn.
  pose proof (all_below_spec _ _ sextet_roundtrip_checked n Hn) as H.
  unfold sextet_roundtrip in H.
  destruct (dec_sextet (enc_sextet n)) as [m|]; [|discriminate].
  apply andb_prop in H. destruct H as [H _].
  apply N.eqb_eq in H. congruence.
Qed.

Lemma enc_not_pad n :
  n < 64 -> Byte.eqb (enc_sextet n) b64_pad = false.
Proof.
  intros Hn.
  pose proof (all_below_spec _ _ sextet_roundtrip_checked n Hn) as H.
  unfold sextet_roundtrip in H.
  destruct (dec_sextet (enc_sextet n)) as [m|]; [|discriminate].
  apply andb_prop in H. destruct H as [_ H].
  apply negb_true_iff in H. exact H.
Qed.

End Base64Facts.

Module Base64Roundtrip.
Import Base64 Base64Facts.

Lemma list_ind3 {A} (P : list A -> Prop) :
  P [] ->
  (forall a, P [a]) ->
  (forall a b, P [a; b]) ->
  (forall a b c l, P l -> P (a :: b :: c :: l)) ->
  forall l, P l.
Proof.
  intros H0 H1 H2 H3. fix IH 1.
  intros [|a [|b [|c l]]]; [exact H0 | apply H1 | apply H2 | apply H3, IH].
Qed.

Lemma octets_bytes (bs : list byte) : octets (map Byte.to_N bs) = Some bs.
Proof.
  unfold octets. induction bs as [|b bs IH]; [reflexivity|].
  cbn. rewrite Byte.of_to_N. cbn. unfold octets in IH.
  rewrite IH. reflexivity.
Qed.

Lemma decode_one (a : byte) :
  b64decode (b64encode [a]) = Some [a].
Proof.
  destruct (sextets_lt a a) as (H0 & _ & _ & _).
  pose proof (s1_zero_lt a) as H1.
  cbn [b64encode b64decode].
  rewrite (dec_enc _ H0), (dec_enc _ H1).
  change (Byte.eqb b64_pad b64_pad) with true. cbv iota.
  change 0 with (Byte.to_N x00).
  destruct (octets_eq a x00) as (E0 & _).
  rewrite E0. exact (octets_bytes [a]).
Qed.

Lemma decode_two (a b : byte) :
  b64decode (b64encode [a; b]) = Some [a; b].
Proof.
  destruct (sextets_lt a b) as (H0 & H1 & _ & _).
  pose proof (s2_zero_lt b) as H2.
  cbn [b64encode b64decode].
  rewrite (dec_enc _ H0), (dec_enc _ H1), (enc_not_pad _ H2), (dec_enc _ H2).
  change (Byte.eqb b64_pad b64_pad) with true. cbv iota.
  destruct (octets_eq a b) as (E0 & _).
  rewrite E0.
  change 0 with (Byte.to_N x00).
  rewrite (o1_middle a b x00).
  exact (octets_bytes [a; b]).
Qed.

Lemma decode_three (a b c : byte) (rest : list byte) :
  b64decode (b64encode (a :: b :: c :: rest))
  = match b64decode (b64encode rest) with
    | Some tl => Some ([a; b; c] ++ tl)
    | None => None
    end.
Proof.
  destruct (sextets_lt a b) as (H0 & H1 & _ & _).
  destruct (sextets_lt b c) as (_ & _ & H2 & _).
  destruct (sextets_lt c c) as (_ & _ & _ & H3).
  cbn [b64encode b64decode].
  rewrite (dec_enc _ H0), (dec_enc _ H1), (enc_not_pad _ H2), (dec_enc _ H2),
    (enc_not_pad _ H3), (dec_enc _ H3).
  destruct (octets_eq a b) as (E0 & _).
  destruct (octets_eq b c) as (_ & E2 & _).
  rewrite E0, E2, (o1_middle a b c).
  pose proof (octets_bytes [a; b; c]) as Ho. cbn [map] in Ho.
  rewrite Ho. reflexivity.
Qed.

Lemma b64_roundtrip (bs : list byte) : b64decode (b64encode bs) = Some bs.
Proof.
  induction bs as [| a | a b | a b c rest IH] using list_ind3.
  - reflexivity.
  - apply decode_one.
  - apply decode_two.
  - rewrite decode_three, IH. reflexivity.
Qed.

End Base64Roundtrip.

(** ** The encoded text is ASCII, so decoding it as UTF-8 cannot fail *)

Module TextFacts.
Import Base64 Utf8.

Lemma alphabet_ascii : forallb is_ascii (b64_pad :: b64_alphabet) = true.
Proof. vm_compute. reflexivity. Qed.

Lemma enc_sextet_ascii n : is_ascii (enc_sextet n) = true.
Proof.
  pose proof alphabet_ascii as H. rewrite forallb_forall in H.
  apply H. unfold enc_sextet.
  destruct (nth_in_or_default (N.to_nat n) b64_alphabet b64_pad) as [Hin | Heq].
  - right. exact Hin.
  - left. symmetry. exact Heq.
Qed.

Lemma pad_ascii : is_ascii b64_pad = true.
Proof. reflexivity. Qed.

Lemma b64encode_ascii (bs : list byte) :
  forallb is_ascii (b64encode bs) = true.
Proof.
  induction bs as [| a | a b | a b c rest IH] using Base64Roundtrip.list_ind3;
    cbn [b64encode forallb];
    rewrite ?enc_sextet_ascii, ?pad_ascii, ?IH; reflexivity.
Qed.

Lemma ascii_utf8_valid (bs : list byte) :
  forallb is_ascii bs = true -> utf8_valid bs = true.
Proof.
  induction bs as [|b bs IH]; [reflexivity|].
  cbn [forallb]. intros H. apply andb_prop in H. destruct H as [Hb Hbs].
  unfold is_ascii in Hb. cbn [utf8_valid]. cbv zeta. rewrite Hb.
  apply IH, Hbs.
Qed.

Lemma b64encode_utf8_valid (bs : list byte) : utf8_valid (b64encode bs) = true.
Proof. apply ascii_utf8_valid, b64encode_ascii. Qed.

End TextFacts.


(** ** Runs of [analyze_image] *)

Section Runs.

Variable w : world.

Lemma extend_extend st a b : extend (extend st a) b = extend st (a ++ b).
Proof. unfold extend. cbn. rewrite <- app_assoc. reflexivity. Qed.

Lemma bind_emit {A} e (k : Py A) st : (emit e ;;; k) st = k (extend st [e]).
Proof. reflexivity. Qed.

Lemma bind_run {A B} (m : Py A) (k : A -> Py B) st :
  bind m k st
  = match m st with
    | (st', Return a) => k a st'
    | (st', Raise e) => (st', Raise e)
    end.
Proof. reflexivity. Qed.

Lemma OpenAI_run key st :
  OpenAI w key st
  = match client_error w key with
    | Some e => (extend st [EvClient key], Raise e)
    | None => (extend st [EvClient key], Return {| client_key := key |})
    end.
Proof.
  unfold OpenAI. rewrite bind_emit.
  destruct (client_error w key); reflexivity.
Qed.

(** The retry loop sends the requests [attempts] counts and ends as it
    says. *)
Lemma send_run key req retries :
  forall attempt st,
    send w key req attempt retries st
    = (extend st (repeat (EvRequest key req)
                    (fst (attempts w key req attempt retries))),
       match snd (attempts w key req attempt retries) with
       | inl e => Raise e
       | inr response => Return response
       end).
Proof.
  induction retries as [|retries IH]; intros attempt st;
    cbn [send attempts]; rewrite bind_emit;
    destruct (remote w key req attempt) as [e | response];
    try reflexivity.
  destruct (retryable e); [|reflexivity].
  rewrite IH, extend_extend.
  destruct (attempts w key req (S attempt) retries) as [n out].
  reflexivity.
Qed.

Lemma attempts_bounds key req retries :
  forall attempt,
    (1 <= fst (attempts w key req attempt retries) <= S retries)%nat.
Proof.
  induction retries as [|retries IH]; intros attempt; cbn [attempts];
    destruct (remote w key req attempt) as [e | response];
    try (cbn; lia).
  destruct (retryable e); [|cbn; lia].
  specialize (IH (S attempt)).
  destruct (attempts w key req (S attempt) retries) as [n out].
  cbn in *. lia.
Qed.

Lemma create_outcome_bounds key req n out :
  create_outcome w key req = (n, out) -> (1 <= n <= 3)%nat.
Proof.
  intros H. pose proof (attempts_bounds key req max_retries 0%nat) as Hb.
  unfold create_outcome in H. rewrite H in Hb. exact Hb.
Qed.

Lemma create_outcome_first key req :
  first_attempt_final w key req = true ->
  fst (create_outcome w key req) = 1%nat.
Proof.
  unfold first_attempt_final, create_outcome, max_retries. cbn [attempts].
  destruct (remote w key req 0) as [e | response]; [|reflexivity].
  intros H. apply negb_true_iff in H. rewrite H. reflexivity.
Qed.

Lemma create_outcome_rejected key req e :
  remote w key req 0 = inl e -> retryable e = false ->
  create_outcome w key req = (1%nat, inl e).
Proof.
  intros Hr He. unfold create_outcome, max_retries. cbn [attempts].
  rewrite Hr, He. reflexivity.
Qed.

Lemma create_run c req st :
  chat_completions_create w c req st
  = match create_outcome w (client_key c) req with
    | (n, inl e) =>
        (extend st (repeat (EvRequest (client_key c) req) n), Raise e)
    | (n, inr response) =>
        (extend st (repeat (EvRequest (client_key c) req) n), Return response)
    end.
Proof.
  unfold chat_completions_create, create_outcome. rewrite send_run.
  destruct (attempts w (client_key c) req 0 max_retries) as [n [e | response]];
    reflexivity.
Qed.

Lemma encoded_text data st :
  bytes_decode (Base64.b64encode data) st
  = (st, Return (encoded_payload data)).
Proof.
  unfold bytes_decode, encoded_payload.
  rewrite TextFacts.b64encode_utf8_valid. reflexivity.
Qed.

(** The with block: open, read, encode, close. *)
Lemma with_block_run path st :
  with_open w path (fun image_file =>
    let! data := file_read image_file in
    bytes_decode (Base64.b64encode data)) st
  = match fs w path with
    | NoOpen e => (extend st [EvOpen path false], Raise (open_exn e))
    | NoRead e =>
        (extend st [EvOpen path true; EvRead; EvClose], Raise (OSError e))
    | Regular data =>
        (extend st [EvOpen path true; EvRead; EvClose],
         Return (encoded_payload data))
    end.
Proof.
  unfold with_open. destruct (fs w path) as [e | e | data].
  - reflexivity.
  - rewrite bind_emit. unfold try_finally, file_read, bind, emit, raise.
    rewrite !extend_extend. reflexivity.
  - rewrite bind_emit. unfold try_finally, file_read, bind, emit, ret.
    rewrite encoded_text, !extend_extend. reflexivity.
Qed.

(** Every run of [analyze_image], by what the world answers. *)
Lemma analyze_image_run path prompt key st :
  analyze_image w path prompt key st
  = match client_error w key with
    | Some ce => (extend st [EvClient key], Raise ce)
    | None =>
        match fs w path with
        | NoOpen e =>
            (extend st [EvClient key; EvOpen path false], Raise (open_exn e))
        | NoRead e =>
            (extend st [EvClient key; EvOpen path true; EvRead; EvClose],
             Raise (OSError e))
        | Regular data =>
            let req := build_request prompt (encoded_payload data) in
            match create_outcome w key req with
            | (n, inl e) => (extend st (call_events path key req n), Raise e)
            | (n, inr response) =>
                match response_content response with
                | Raise e => (extend st (call_events path key req n), Raise e)
                | Return c =>
                    if stdout_accepts w (py_str w c +:+ LF) then
                      (extend st (call_events path key req n
                                  ++ [EvPrint (py_str w c +:+ LF)]),
                       Return tt)
                    else
                      (extend st (call_events path key req n),
                       Raise UnicodeEncodeError)
                end
            end
        end
    end.
Proof.
  unfold analyze_image.
  rewrite bind_run, OpenAI_run.
  destruct (client_error w key) as [ce |]; [reflexivity |].
  rewrite bind_run, with_block_run.
  destruct (fs w path) as [e | e | data].
  - rewrite extend_extend. reflexivity.
  - rewrite extend_extend. reflexivity.
  - cbv zeta. rewrite bind_emit, bind_run, create_run. cbn [client_key].
    destruct (create_outcome w key _) as [n [e | response]].
    + rewrite !extend_extend. reflexivity.
    + rewrite bind_run. unfold lift.
      destruct (response_content response) as [c | e].
      * unfold print. cbv zeta.
        destruct (stdout_accepts w (py_str w c +:+ LF)).
        -- unfold emit. rewrite !extend_extend.
           unfold call_events. rewrite <- !app_assoc. reflexivity.
        -- unfold raise. rewrite !extend_extend. reflexivity.
      * rewrite !extend_extend. reflexivity.
Qed.

End Runs.

(** ** Invocations from an empty trace *)

Lemma invoke_run w path prompt key :
  invoke w path prompt key
  = match client_error w key with
    | Some ce => ([EvClient key], Raise ce)
    | None =>
        match fs w path with
        | NoOpen e => ([EvClient key; EvOpen path false], Raise (open_exn e))
        | NoRead e =>
            ([EvClient key; EvOpen path true; EvRead; EvClose],
             Raise (OSError e))
        | Regular data =>
            let req := build_request prompt (encoded_payload data) in
            match create_outcome w key req with
            | (n, inl e) => (call_events path key req n, Raise e)
            | (n, inr response) =>
                match response_content response with
                | Raise e => (call_events path key req n, Raise e)
                | Return c =>
                    if stdout_accepts w (py_str w c +:+ LF) then
                      (call_events path key req n
                       ++ [EvPrint (py_str w c +:+ LF)], Return tt)
                    else (call_events path key req n, Raise UnicodeEncodeError)
                end
            end
        end
    end.
Proof.
  unfold invoke. rewrite analyze_image_run.
  destruct (client_error w key) as [ce |]; [reflexivity |].
  destruct (fs w path) as [e | e | data]; [reflexivity | reflexivity |].
  cbv zeta. destruct (create_outcome w key _) as [n [e | response]];
    [reflexivity |].
  destruct (response_content response) as [c | e]; [|reflexivity].
  destruct (stdout_accepts w (py_str w c +:+ LF)); reflexivity.
Qed.

(** ** Observations on the events of a call *)

Lemma append_cons c s t : String c s +:+ t = String c (s +:+ t).
Proof. reflexivity. Qed.

Lemma append_empty_r s : s +:+ "" = s.
Proof.
  induction s as [|c s IH]; [reflexivity|].
  rewrite append_cons, IH. reflexivity.
Qed.

Lemma lines_terminated s :
  has_newline s = false -> lines (s +:+ LF) = [s].
Proof.
  induction s as [|c s IH]; [reflexivity|].
  cbn [has_newline]. intros H. apply orb_false_elim in H. destruct H as [Hc Hs].
  rewrite append_cons. cbn [lines]. rewrite Hc, (IH Hs). reflexivity.
Qed.

Section CallEvents.

Variables (path : string) (key : value) (req : request).

Lemma requests_of_sent n t :
  requests_of (repeat (EvRequest key req) n ++ t) = repeat req n ++ requests_of t.
Proof. induction n as [|n IH]; [reflexivity|]. cbn. rewrite IH. reflexivity. Qed.

Lemma payloads_of_sent n t :
  payloads_of (repeat (EvRequest key req) n ++ t) = payloads_of t.
Proof. induction n as [|n IH]; [reflexivity|]. exact IH. Qed.

Lemma stdout_of_sent n t :
  stdout_of (repeat (EvRequest key req) n ++ t) = stdout_of t.
Proof. induction n as [|n IH]; [reflexivity|]. exact IH. Qed.

Lemma prints_of_sent n t :
  prints_of (repeat (EvRequest key req) n ++ t) = prints_of t.
Proof. induction n as [|n IH]; [reflexivity|]. exact IH. Qed.

Lemma handles_open_sent m n t :
  handles_open m (repeat (EvRequest key req) n ++ t) = handles_open m t.
Proof. induction n as [|n IH]; [reflexivity|]. exact IH. Qed.

Lemma closed_at_requests_sent n t :
  closed_at_requests 0 (repeat (EvRequest key req) n ++ t)
  = closed_at_requests 0 t.
Proof. induction n as [|n IH]; [reflexivity|]. exact IH. Qed.

(** What is observed of a call followed by further events [t]. *)
Lemma call_observed n t :
  requests_of (call_events path key req n ++ t) = repeat req n ++ requests_of t
  /\ payloads_of (call_events path key req n ++ t) = req :: payloads_of t
  /\ stdout_of (call_events path key req n ++ t) = stdout_of t
  /\ prints_of (call_events path key req n ++ t) = prints_of t
  /\ handles_open 0 (call_events path key req n ++ t) = handles_open 0 t
  /\ closed_at_requests 0 (call_events path key req n ++ t)
     = closed_at_requests 0 t.
Proof.
  unfold call_events. rewrite <- app_assoc. cbn [app].
  cbn [requests_of payloads_of stdout_of prints_of handles_open
         closed_at_requests Nat.pred].
  rewrite requests_of_sent, payloads_of_sent, stdout_of_sent, prints_of_sent,
    handles_open_sent, closed_at_requests_sent.
  repeat split.
Qed.

Lemma call_observed_alone n :
  requests_of (call_events path key req n) = repeat req n
  /\ payloads_of (call_events path key req n) = [req]
  /\ stdout_of (call_events path key req n) = ""
  /\ prints_of (call_events path key req n) = 0%nat
  /\ handles_open 0 (call_events path key req n) = 0%nat
  /\ closed_at_requests 0 (call_events path key req n) = true.
Proof.
  pose proof (call_observed n []) as H. rewrite !app_nil_r in H. exact H.
Qed.

Lemma call_observed_print n text :
  requests_of (call_events path key req n ++ [EvPrint text]) = repeat req n
  /\ payloads_of (call_events path key req n ++ [EvPrint text]) = [req]
  /\ stdout_of (call_events path key req n ++ [EvPrint text]) = text
  /\ prints_of (call_events path key req n ++ [EvPrint text]) = 1%nat
  /\ handles_open 0 (call_events path key req n ++ [EvPrint text]) = 0%nat
  /\ closed_at_requests 0 (call_events path key req n ++ [EvPrint text]) = true.
Proof.
  pose proof (call_observed n [EvPrint text]) as H.
  cbn [requests_of payloads_of stdout_of prints_of handles_open
         closed_at_requests] in H.
  rewrite app_nil_r, append_empty_r in H. exact H.
Qed.

Lemma call_requests_in n t k r :
  In (EvRequest k r) (call_events path key req n ++ t) ->
  (forall k' r', ~ In (EvRequest k' r') t) ->
  k = key /\ r = req.
Proof.
  intros Hin Ht. unfold call_events in Hin.
  apply in_app_or in Hin. destruct Hin as [Hin | Hin].
  - apply in_app_or in Hin. destruct Hin as [Hin | Hin].
    + cbn in Hin.
      destruct Hin as [H | [H | [H | [H | [H | []]]]]]; discriminate H.
    + apply repeat_spec in Hin. injection Hin as -> ->. split; reflexivity.
  - exfalso. exact (Ht _ _ Hin).
Qed.

End CallEvents.

Lemma closed_at_requests_split t1 :
  forall n t k r t2,
    closed_at_requests n t = true ->
    t = t1 ++ EvRequest k r :: t2 ->
    handles_open n t1 = 0%nat.
Proof.
  induction t1 as [|x t1 IH]; intros n t k r t2 Hc ->.
  - cbn in Hc. apply andb_prop in Hc. destruct Hc as [Hn _].
    apply Nat.eqb_eq in Hn. exact Hn.
  - cbn [app] in Hc.
    destruct x as [? | ? [] | | | ? | ? ? | ?]; cbn in Hc |- *;
      try (eapply IH; [exact Hc | reflexivity]).
    apply andb_prop in Hc. destruct Hc as [_ Hc].
    eapply IH; [exact Hc | reflexivity].
Qed.

(** The expression [response.choices[0].message.content] reads the first
    choice's message content, and nothing else gives it a value. *)
Lemma response_content_first response c :
  response_content response = Return c <-> first_choice_content response c.
Proof.
  split.
  - unfold response_content.
    destruct response as [| s | items | attrs]; cbn; try discriminate.
    destruct (assoc "choices" attrs) as [choices |] eqn:Hchoices;
      cbn; [|discriminate].
    destruct choices as [| s | [| choice others] | cattrs]; cbn;
      try discriminate.
    + destruct s; cbn; discriminate.
    + destruct choice as [| s | items | cattrs]; cbn; try discriminate.
      destruct (assoc "message" cattrs) as [message |] eqn:Hmessage;
        cbn; [|discriminate].
      destruct message as [| s | items | mattrs]; cbn; try discriminate.
      destruct (assoc "content" mattrs) as [c' |] eqn:Hcontent;
        [|discriminate].
      intros [= <-]. exists attrs, cattrs, mattrs, others. repeat split; assumption.
  - intros (attrs & cattrs & mattrs & others & -> & Hchoices & Hmessage & Hcontent).
    unfold response_content. cbn. rewrite Hchoices. cbn.
    rewrite Hmessage. cbn. rewrite Hcontent. reflexivity.
Qed.

(** ** The claims about [analyze_image] *)

(** C1 (as amended).  With a key the client accepts, a readable file, a
    [create] call that ends in a response whose first choice has the
    string [s] as message content, and a standard output that can encode
    [s]: one invocation of [analyze_image] returns normally, builds one
    request payload and makes one [create] call, for which the client
    sends between one and three HTTP requests carrying that payload
    (exactly one when the first is answered), and performs exactly one
    print: standard output receives [s] followed by one newline.  That
    output is exactly one line, equal to [s], whenever [s] holds no
    newline.  Nothing else of the response is consumed: a world answering
    with any other response of the same first content gives the same
    events and outcome. *)
Theorem C1_one_request_one_print
  (w : world) (path prompt : string) (key : value)
  (data : list byte) (n : nat) (response : pyval) (s : string) :
  client_error w key = None ->
  fs w path = Regular data ->
  create_outcome w key (build_request prompt (encoded_payload data))
    = (n, inr response) ->
  first_choice_content response (PStr s) ->
  stdout_accepts w (s +:+ LF) = true ->
  snd (invoke w path prompt key) = Return tt
  /\ payloads_of (fst (invoke w path prompt key))
     = [build_request prompt (encoded_payload data)]
  /\ requests_of (fst (invoke w path prompt key))
     = repeat (build_request prompt (encoded_payload data)) n
  /\ (1 <= n <= 3)%nat
  /\ (first_attempt_final w key (build_request prompt (encoded_payload data))
      = true ->
      requests_of (fst (invoke w path prompt key))
      = [build_request prompt (encoded_payload data)])
  /\ prints_of (fst (invoke w path prompt key)) = 1%nat
  /\ stdout_of (fst (invoke w path prompt key)) = s +:+ LF
  /\ (has_newline s = false ->
      lines (stdout_of (fst (invoke w path prompt key))) = [s])
  /\ (forall (w' : world) (response' : pyval),
        client_error w' key = None ->
        fs w' path = Regular data ->
        create_outcome w' key (build_request prompt (encoded_payload data))
          = (n, inr response') ->
        first_choice_content response' (PStr s) ->
        stdout_accepts w' (s +:+ LF) = true ->
        invoke w' path prompt key = invoke w path prompt key).
Proof.
  intros Hclient Hfs Hcreate Hcontent Hout.
  apply response_content_first in Hcontent.
  assert (Hrun : invoke w path prompt key
                 = (call_events path key
                      (build_request prompt (encoded_payload data)) n
                    ++ [EvPrint (s +:+ LF)], Return tt)).
  { rewrite invoke_run, Hclient, Hfs. cbv zeta.
    rewrite Hcreate, Hcontent. cbn [py_str]. rewrite Hout. reflexivity. }
  rewrite Hrun. cbn [fst snd].
  destruct (call_observed_print path key
              (build_request prompt (encoded_payload data)) n (s +:+ LF))
    as (Hreqs & Hpay & Hstd & Hprints & _).
  rewrite Hreqs, Hpay, Hstd, Hprints.
  split; [reflexivity |]. split; [reflexivity |]. split; [reflexivity |].
  split; [exact (create_outcome_bounds w _ _ _ _ Hcreate) |].
  split.
  { intros Hfirst. apply create_outcome_first in Hfirst.
    rewrite Hcreate in Hfirst. cbn in Hfirst. subst n. reflexivity. }
  split; [reflexivity |]. split; [reflexivity |].
  split; [apply lines_terminated |].
  intros w' response' Hclient' Hfs' Hcreate' Hcontent' Hout'.
  apply response_content_first in Hcontent'.
  rewrite invoke_run, Hclient', Hfs'. cbv zeta.
  rewrite Hcreate', Hcontent'. cbn [py_str]. rewrite Hout'. reflexivity.
Qed.

(** C2 (as amended).  When the path does not name a readable file,
    [analyze_image] fails before any request is issued and before any
    request payload is built, and prints nothing.  With a key the client
    accepts the exception is the one [open] or [read] raises: an
    [OSError] (the specification's FileAccessError), except for a path
    that is no file name, for which [open] raises [ValueError].  With a
    key the client refuses, the constructor's error is raised before the
    file is touched. *)
Theorem C2_missing_file_fails_first
  (w : world) (path prompt : string) (key : value) :
  (forall data, fs w path <> Regular data) ->
  requests_of (fst (invoke w path prompt key)) = []
  /\ payloads_of (fst (invoke w path prompt key)) = []
  /\ stdout_of (fst (invoke w path prompt key)) = ""
  /\ (forall ce, client_error w key = Some ce ->
        invoke w path prompt key = ([EvClient key], Raise ce))
  /\ (client_error w key = None ->
      exists e,
        snd (invoke w path prompt key) = Raise e
        /\ (fs w path = NoOpen InvalidPath -> e = ValueError)
        /\ (fs w path <> NoOpen InvalidPath ->
            classify e = FileAccess /\ exists oe, e = OSError oe)).
Proof.
  intros Hnot. rewrite invoke_run.
  destruct (client_error w key) as [ce |].
  - repeat split; try discriminate. intros ce' [= <-]. reflexivity.
  - destruct (fs w path) as [[oe |] | re | data] eqn:Hfs.
    + repeat split; try discriminate. intros _.
      exists (OSError oe). repeat split; try discriminate. exists oe. reflexivity.
    + repeat split; try discriminate. intros _.
      exists ValueError. repeat split; try discriminate; congruence.
    + repeat split; try discriminate. intros _.
      exists (OSError re). repeat split; try discriminate. exists re. reflexivity.
    + exfalso. apply (Hnot data). reflexivity.
Qed.

(** C3.  For every file content, the text that [analyze_image] embeds
    after the data-URI prefix decodes, as base64, to exactly the bytes of
    the file. *)
Theorem C3_payload_roundtrip
  (w : world) (path prompt : string) (key : value) (data : list byte) :
  client_error w key = None ->
  fs w path = Regular data ->
  exists payload,
    payloads_of (fst (invoke w path prompt key))
      = [build_request prompt payload]
    /\ image_parts (build_request prompt payload)
       = ["data:image/jpeg;base64," +:+ payload]
    /\ Base64.b64decode (list_byte_of_string payload) = Some data.
Proof.
  intros Hclient Hfs. exists (encoded_payload data). split; [|split].
  - rewrite invoke_run, Hclient, Hfs. cbv zeta.
    destruct (create_outcome w key _) as [n [e | response]];
      [apply call_observed_alone |].
    destruct (response_content response) as [c | e];
      [|apply call_observed_alone].
    destruct (stdout_accepts w _);
      [apply call_observed_print | apply call_observed_alone].
  - reflexivity.
  - unfold encoded_payload. rewrite list_byte_of_string_of_list_byte.
    apply Base64Roundtrip.b64_roundtrip.
Qed.

Lemma requests_of_readable w path prompt key data :
  client_error w key = None ->
  fs w path = Regular data ->
  payloads_of (fst (invoke w path prompt key))
  = [build_request prompt (encoded_payload data)]
  /\ requests_of (fst (invoke w path prompt key))
     = repeat (build_request prompt (encoded_payload data))
         (fst (create_outcome w key
                 (build_request prompt (encoded_payload data)))).
Proof.
  intros Hclient Hfs. rewrite invoke_run, Hclient, Hfs. cbv zeta.
  destruct (create_outcome w key _) as [n [e | response]]; cbn [fst].
  - split; apply call_observed_alone.
  - destruct (response_content response) as [c | e]; cbn [fst];
      [|split; apply call_observed_alone].
    destruct (stdout_accepts w _); cbn [fst];
      [split; apply call_observed_print | split; apply call_observed_alone].
Qed.

(** C4.  Whatever the bytes of the file are, the one request built
    holds exactly one image part, and its URL is the literal
    [data:image/jpeg;base64,] followed by the base64 text of the bytes;
    it is sent, and every HTTP request of the invocation carries it. *)
Theorem C4_data_uri_declares_jpeg
  (w : world) (path prompt : string) (key : value) (data : list byte) :
  client_error w key = None ->
  fs w path = Regular data ->
  exists req,
    payloads_of (fst (invoke w path prompt key)) = [req]
    /\ requests_of (fst (invoke w path prompt key)) <> []
    /\ (forall r, In r (requests_of (fst (invoke w path prompt key))) -> r = req)
    /\ image_parts req
       = ["data:image/jpeg;base64,"
          +:+ string_of_list_byte (Base64.b64encode data)].
Proof.
  intros Hclient Hfs. exists (build_request prompt (encoded_payload data)).
  destruct (requests_of_readable w path prompt key data Hclient Hfs)
    as [Hpay Hreqs].
  rewrite Hpay, Hreqs.
  split; [reflexivity |]. split; [|split; [|reflexivity]].
  - pose proof (attempts_bounds w key
                  (build_request prompt (encoded_payload data))
                  max_retries 0%nat) as Hb.
    unfold create_outcome.
    destruct (fst (attempts w key _ 0 max_retries)); [lia | discriminate].
  - intros r Hin. apply repeat_spec in Hin. exact Hin.
Qed.

(** ** Program runs *)

Section ScriptRuns.

Variable w : world.

Lemma load_unbound x st :
  globals st !! x = None -> x ∉ builtin w ->
  load_name w x st = (st, Raise (NameError x)).
Proof.
  intros Hg Hb. unfold load_name. rewrite Hg.
  destruct (decide (x ∈ builtin w)); [contradiction | reflexivity].
Qed.

Lemma load_global x v st :
  globals st !! x = Some v -> load_name w x st = (st, Return v).
Proof. intros Hg. unfold load_name. rewrite Hg. reflexivity. Qed.

Lemma load_total x st :
  (exists v, load_name w x st = (st, Return v))
  \/ load_name w x st = (st, Raise (NameError x)).
Proof.
  unfold load_name. destruct (globals st !! x) as [v|].
  - left. exists v. reflexivity.
  - destruct (decide (x ∈ builtin w)).
    + left. exists (VBuiltin x). reflexivity.
    + right. reflexivity.
Qed.

Lemma imported_key g0 :
  imported g0 !! "OPENAI_API_KEY" = g0 !! "OPENAI_API_KEY".
Proof. unfold imported. rewrite !lookup_insert_ne by done. reflexivity. Qed.

Lemma defined_function g0 k :
  defined g0 k !! "analyze_image" = Some (VFunction k).
Proof.
  unfold defined. rewrite !lookup_insert_ne by done.
  apply lookup_insert_eq.
Qed.

(** A run stops at an import, stops at the [def], or is the one call. *)
Lemma run_script_cases g0 :
  run_script w g0
  = if installed w "openai" then
      if installed w "base64" then
        match load_name w "OPENAI_API_KEY"
                {| globals := imported g0; trace := [] |} with
        | (_, Raise e) => ({| globals := imported g0; trace := [] |}, Raise e)
        | (_, Return k) =>
            analyze_image w "claude-2-result-2.png" (quadrant_input target) k
              {| globals := defined g0 k; trace := [] |}
        end
      else
        ({| globals := <["openai" := VModule "openai"]> g0; trace := [] |},
         Raise (ModuleNotFoundError "base64"))
    else
      ({| globals := g0; trace := [] |}, Raise (ModuleNotFoundError "openai")).
Proof.
  unfold run_script, image_py, import_module.
  destruct (installed w "openai"); [|reflexivity].
  rewrite bind_run. cbn [store_name globals trace].
  destruct (installed w "base64"); [|reflexivity].
  rewrite bind_run. cbn [store_name globals trace].
  change (<["base64":=VModule "base64"]> (<["openai":=VModule "openai"]> g0))
    with (imported g0).
  rewrite bind_run.
  destruct (load_total "OPENAI_API_KEY" {| globals := imported g0; trace := [] |})
    as [[k Hk] | Hk]; rewrite Hk; [|reflexivity].
  change ((store_name "analyze_image" (VFunction k) ;;;
           store_name "target" (VStr target) ;;;
           store_name "quadrant_input" (VStr (quadrant_input target)) ;;;
           let! f := load_name w "analyze_image" in
           call2 w f "claude-2-result-2.png" (quadrant_input target))
            {| globals := imported g0; trace := [] |})
    with ((let! f := load_name w "analyze_image" in
           call2 w f "claude-2-result-2.png" (quadrant_input target))
            {| globals := defined g0 k; trace := [] |}).
  rewrite bind_run, (load_global "analyze_image" (VFunction k))
    by apply defined_function.
  reflexivity.
Qed.

Lemma analyze_image_frame path prompt key st :
  analyze_image w path prompt key st
  = (extend st (fst (invoke w path prompt key)),
     snd (invoke w path prompt key)).
Proof.
  rewrite analyze_image_run, invoke_run.
  destruct (client_error w key) as [ce |]; [reflexivity |].
  destruct (fs w path) as [e | e | data]; [reflexivity | reflexivity |].
  cbv zeta. destruct (create_outcome w key _) as [n [e | response]];
    [reflexivity |].
  destruct (response_content response) as [c | e]; [|reflexivity].
  destruct (stdout_accepts w _); reflexivity.
Qed.

(** One invocation builds at most one payload and sends at most three
    requests. *)
Lemma invoke_bounds path prompt key :
  (length (payloads_of (fst (invoke w path prompt key))) <= 1)%nat
  /\ (length (requests_of (fst (invoke w path prompt key))) <= 3)%nat.
Proof.
  rewrite invoke_run.
  destruct (client_error w key) as [ce |]; [cbn; lia |].
  destruct (fs w path) as [e | e | data]; [cbn; lia | cbn; lia |].
  cbv zeta.
  destruct (create_outcome w key _) as [n out] eqn:Hcreate.
  pose proof (create_outcome_bounds w _ _ _ _ Hcreate) as Hn.
  assert (Hgoal : forall t,
            payloads_of t = [build_request prompt (encoded_payload data)] ->
            requests_of t
            = repeat (build_request prompt (encoded_payload data)) n ->
            (length (payloads_of t) <= 1)%nat
            /\ (length (requests_of t) <= 3)%nat).
  { intros t -> ->. rewrite repeat_length. cbn. lia. }
  destruct out as [e | response]; cbn [fst];
    [apply Hgoal; apply call_observed_alone |].
  destruct (response_content response) as [c | e]; cbn [fst];
    [|apply Hgoal; apply call_observed_alone].
  destruct (stdout_accepts w _); cbn [fst];
    [apply Hgoal; apply call_observed_print
    | apply Hgoal; apply call_observed_alone].
Qed.

Lemma run_script_invocation g0 k :
  installed w "openai" = true ->
  installed w "base64" = true ->
  g0 !! "OPENAI_API_KEY" = Some k ->
  run_script w g0
  = ({| globals := defined g0 k;
        trace := fst (invoke w "claude-2-result-2.png"
                        (quadrant_input target) k) |},
     snd (invoke w "claude-2-result-2.png" (quadrant_input target) k)).
Proof.
  intros Ho Hb Hg. rewrite run_script_cases, Ho, Hb.
  rewrite (load_global "OPENAI_API_KEY" k)
    by (cbn [globals]; rewrite imported_key; exact Hg).
  rewrite analyze_image_frame. reflexivity.
Qed.

End ScriptRuns.

(** C5.  With both imports resolved, in a namespace that does not
    already bind [OPENAI_API_KEY] (neither as a global nor as a builtin),
    running the module raises [NameError] for that name when the [def]
    statement evaluates its default argument.  Only the two imports have
    run: [analyze_image] is not bound by the module, no file has been
    opened, no payload built, no request issued and nothing printed. *)
Theorem C5_module_raises_name_error (w : world) (g0 : gmap string value) :
  installed w "openai" = true ->
  installed w "base64" = true ->
  g0 !! "OPENAI_API_KEY" = None ->
  "OPENAI_API_KEY" ∉ builtin w ->
  run_script w g0
  = ({| globals := imported g0; trace := [] |},
     Raise (NameError "OPENAI_API_KEY"))
  /\ imported g0 !! "analyze_image" = g0 !! "analyze_image"
  /\ script_trace w g0 = []
  /\ requests_of (script_trace w g0) = []
  /\ payloads_of (script_trace w g0) = []
  /\ stdout_of (script_trace w g0) = "".
Proof.
  intros Ho Hi Hg Hb.
  assert (Hrun : run_script w g0
                 = ({| globals := imported g0; trace := [] |},
                    Raise (NameError "OPENAI_API_KEY"))).
  { rewrite run_script_cases, Ho, Hi, load_unbound;
      [reflexivity | | exact Hb].
    cbn [globals]. rewrite imported_key. exact Hg. }
  unfold script_trace. rewrite Hrun. cbn [fst trace].
  repeat split.
  unfold imported. rewrite !lookup_insert_ne by done. reflexivity.
Qed.

(** C6 (as amended).  In every program run at most one [create] call is
    made, and the client sends at most three HTTP requests for it: the
    first and up to two retries of a retryable failure.  When both
    imports succeed, [OPENAI_API_KEY] is bound to a value the client
    accepts and the image file is readable, exactly one call is made
    and at least one request is sent; exactly one request is sent when
    the first is answered or fails with an error that is not retried. *)
Theorem C6_at_most_one_request (w : world) (g0 : gmap string value) :
  (length (payloads_of (script_trace w g0)) <= 1)%nat
  /\ (length (requests_of (script_trace w g0)) <= 3)%nat
  /\ (forall k data,
        installed w "openai" = true ->
        installed w "base64" = true ->
        g0 !! "OPENAI_API_KEY" = Some k ->
        client_error w k = None ->
        fs w "claude-2-result-2.png" = Regular data ->
        length (payloads_of (script_trace w g0)) = 1%nat
        /\ (1 <= length (requests_of (script_trace w g0)))%nat
        /\ (first_attempt_final w k
              (build_request (quadrant_input target) (encoded_payload data))
            = true ->
            length (requests_of (script_trace w g0)) = 1%nat)).
Proof.
  split; [|split].
  - unfold script_trace. rewrite run_script_cases.
    destruct (installed w "openai"); [|cbn; lia].
    destruct (installed w "base64"); [|cbn; lia].
    destruct (load_total w "OPENAI_API_KEY"
                {| globals := imported g0; trace := [] |}) as [[k Hk] | Hk];
      rewrite Hk; [|cbn; lia].
    rewrite analyze_image_frame. cbn [fst extend trace app].
    apply invoke_bounds.
  - unfold script_trace. rewrite run_script_cases.
    destruct (installed w "openai"); [|cbn; lia].
    destruct (installed w "base64"); [|cbn; lia].
    destruct (load_total w "OPENAI_API_KEY"
                {| globals := imported g0; trace := [] |}) as [[k Hk] | Hk];
      rewrite Hk; [|cbn; lia].
    rewrite analyze_image_frame. cbn [fst extend trace app].
    apply invoke_bounds.
  - intros k data Ho Hb Hg Hclient Hfs.
    unfold script_trace.
    rewrite (run_script_invocation w g0 k Ho Hb Hg). cbn [fst trace].
    destruct (requests_of_readable w "claude-2-result-2.png"
                (quadrant_input target) k data Hclient Hfs) as [Hpay Hreqs].
    rewrite Hpay, Hreqs, repeat_length.
    pose proof (attempts_bounds w k
                  (build_request (quadrant_input target) (encoded_payload data))
                  max_retries 0%nat) as Hbound.
    split; [reflexivity |]. split; [exact (proj1 Hbound) |].
    intros Hfirst. apply create_outcome_first. exact Hfirst.
Qed.

(** C7 (as amended).  [analyze_image] catches nothing: whatever step
    raises -- building the client, opening the file, reading it, the
    [create] call, the access to [choices[0].message.content] or the
    print -- the invocation ends with that same exception and nothing is
    printed.  It has no fallback and calls [create] at most once; within
    that call the client itself sends a retryably failing request again,
    so up to three HTTP requests go out. *)
Theorem C7_errors_propagate
  (w : world) (path prompt : string) (key : value) (e : exn) :
  step_raises w path prompt key e ->
  snd (invoke w path prompt key) = Raise e
  /\ prints_of (fst (invoke w path prompt key)) = 0%nat
  /\ stdout_of (fst (invoke w path prompt key)) = ""
  /\ (length (payloads_of (fst (invoke w path prompt key))) <= 1)%nat
  /\ (length (requests_of (fst (invoke w path prompt key))) <= 3)%nat.
Proof.
  intros Hstep.
  destruct (invoke_bounds w path prompt key) as [Hpay Hreqs].
  split; [|split; [|split; [|split; [exact Hpay | exact Hreqs]]]];
    clear Hpay Hreqs; rewrite invoke_run;
    destruct Hstep as [e Hc | e Hc Hfs | e Hc Hfs | data n e Hc Hfs Hcreate
                       | data n response e Hc Hfs Hcreate Hcontent
                       | data n response c Hc Hfs Hcreate Hcontent Hout];
    rewrite Hc; try rewrite Hfs; cbv zeta;
    try rewrite Hcreate; try rewrite Hcontent; try rewrite Hout;
    try reflexivity; cbn [fst snd]; apply call_observed_alone.
Qed.

(** C8.  The file handle is released inside the encoding step: no
    handle is open when an invocation ends, on any path, and none is open
    at the moment a request is issued.  When the client is built and
    [open] succeeds, the invocation starts with open, read, close in that
    order. *)
Theorem C8_handle_scoped
  (w : world) (path prompt : string) (key : value) :
  handles_open 0 (fst (invoke w path prompt key)) = 0%nat
  /\ (forall t1 k req t2,
        fst (invoke w path prompt key) = t1 ++ EvRequest k req :: t2 ->
        handles_open 0 t1 = 0%nat)
  /\ (client_error w key = None ->
      (forall e, fs w path <> NoOpen e) ->
      firstn 4 (fst (invoke w path prompt key))
      = [EvClient key; EvOpen path true; EvRead; EvClose]).
Proof.
  assert (Hall : handles_open 0 (fst (invoke w path prompt key)) = 0%nat
                 /\ closed_at_requests 0 (fst (invoke w path prompt key)) = true
                 /\ (client_error w key = None ->
                     (forall e, fs w path <> NoOpen e) ->
                     firstn 4 (fst (invoke w path prompt key))
                     = [EvClient key; EvOpen path true; EvRead; EvClose])).
  { rewrite invoke_run.
    destruct (client_error w key) as [ce |];
      [split; [reflexivity | split; [reflexivity | discriminate]] |].
    destruct (fs w path) as [e | e | data].
    - split; [reflexivity | split; [reflexivity |]].
      intros _ Hne. exfalso. apply (Hne e). reflexivity.
    - split; [reflexivity | split; reflexivity].
    - cbv zeta.
      assert (Hcall : forall n t,
                t = call_events path key
                      (build_request prompt (encoded_payload data)) n
                \/ (exists text,
                      t = call_events path key
                            (build_request prompt (encoded_payload data)) n
                          ++ [EvPrint text]) ->
                handles_open 0 t = 0%nat
                /\ closed_at_requests 0 t = true
                /\ (None = None :> option exn ->
                    (forall e, Regular data <> NoOpen e) ->
                    firstn 4 t
                    = [EvClient key; EvOpen path true; EvRead; EvClose])).
      { intros n t [-> | [text ->]].
        - split; [apply call_observed_alone |].
          split; [apply call_observed_alone | reflexivity].
        - split; [apply call_observed_print |].
          split; [apply call_observed_print | reflexivity]. }
      destruct (create_outcome w key _) as [n [e | response]]; cbn [fst];
        [apply (Hcall n); left; reflexivity |].
      destruct (response_content response) as [c | e]; cbn [fst];
        [|apply (Hcall n); left; reflexivity].
      destruct (stdout_accepts w _); cbn [fst];
        [apply (Hcall n); right; eexists; reflexivity
        | apply (Hcall n); left; reflexivity]. }
  destruct Hall as (Hend & Hclosed & Hstart).
  split; [exact Hend | split; [|exact Hstart]].
  intros t1 k req t2 Hsplit.
  exact (closed_at_requests_split t1 _ _ _ _ _ Hclosed Hsplit).
Qed.

(** C9.  When the client is built, the file is readable and the service
    rejects the credential, [analyze_image] raises [AuthenticationError]
    out of the remote call: the file was read and closed, the payload
    built and the one request issued before the failure, and nothing is
    printed. *)
Theorem C9_rejected_credential
  (w : world) (path prompt : string) (key : value) (data : list byte) :
  client_error w key = None ->
  fs w path = Regular data ->
  remote w key (build_request prompt (encoded_payload data)) 0
    = inl AuthenticationError ->
  invoke w path prompt key
  = (request_events path key (build_request prompt (encoded_payload data)),
     Raise AuthenticationError)
  /\ requests_of (fst (invoke w path prompt key))
     = [build_request prompt (encoded_payload data)]
  /\ prints_of (fst (invoke w path prompt key)) = 0%nat
  /\ stdout_of (fst (invoke w path prompt key)) = "".
Proof.
  intros Hclient Hfs Hremote.
  rewrite invoke_run, Hclient, Hfs. cbv zeta.
  rewrite (create_outcome_rejected w _ _ _ Hremote eq_refl).
  repeat split.
Qed.

(** C10.  Every request an invocation submits carries the model
    identifier [gpt-4.1-mini-2025-04-14] and exactly one message, of role
    [user], whose content is the text part holding [text_prompt]
    unchanged followed by one image_url part; it is sent with the key
    passed in. *)
Theorem C10_request_shape
  (w : world) (path prompt : string) (key k : value) (req : request) :
  In (EvRequest k req) (fst (invoke w path prompt key)) ->
  k = key
  /\ model req = "gpt-4.1-mini-2025-04-14"
  /\ exists url,
       messages req
       = [ {| role := "user";
              content := [TextPart prompt; ImageUrlPart url] |} ].
Proof.
  rewrite invoke_run.
  assert (Hshape : forall data n t,
            In (EvRequest k req)
               (call_events path key
                  (build_request prompt (encoded_payload data)) n ++ t) ->
            (forall k' r', ~ In (EvRequest k' r') t) ->
            k = key
            /\ model req = "gpt-4.1-mini-2025-04-14"
            /\ exists url,
                 messages req
                 = [ {| role := "user";
                        content := [TextPart prompt; ImageUrlPart url] |} ]).
  { intros data n t Hin Ht.
    destruct (call_requests_in _ _ _ _ _ _ _ Hin Ht) as [-> ->].
    split; [reflexivity | split; [reflexivity |]].
    eexists. reflexivity. }
  destruct (client_error w key) as [ce |].
  { cbn. intros [H | []]. discriminate H. }
  destruct (fs w path) as [e | e | data].
  - cbn. intros [H | [H | []]]; discriminate H.
  - cbn. intros [H | [H | [H | [H | []]]]]; discriminate H.
  - cbv zeta.
    assert (Halone : forall n,
              In (EvRequest k req)
                 (call_events path key
                    (build_request prompt (encoded_payload data)) n) ->
              k = key
              /\ model req = "gpt-4.1-mini-2025-04-14"
              /\ exists url,
                   messages req
                   = [ {| role := "user";
                          content := [TextPart prompt; ImageUrlPart url] |} ]).
    { intros n Hin. apply (Hshape data n []).
      - rewrite app_nil_r. exact Hin.
      - intros k' r' []. }
    destruct (create_outcome w key _) as [n [e | response]]; cbn [fst];
      [apply Halone |].
    destruct (response_content response) as [c | e]; cbn [fst];
      [|apply Halone].
    destruct (stdout_accepts w _); cbn [fst]; [|apply Halone].
    intros Hin. apply (Hshape data n _ Hin).
    intros k' r' [H | []]. discriminate H.
Qed.

(** ** The theorems at concrete inputs *)

Lemma C1_witness :
  fs grid_world "grid.png" = Regular png_bytes
  /\ create_outcome grid_world (VStr "sk-live")
       (build_request grid_prompt (encoded_payload png_bytes))
     = (1%nat, inr (completion "17"))
  /\ requests_of (fst (invoke grid_world "grid.png" grid_prompt
                         (VStr "sk-live")))
     = [build_request grid_prompt (encoded_payload png_bytes)]
  /\ lines (stdout_of (fst (invoke grid_world "grid.png" grid_prompt
                              (VStr "sk-live")))) = ["17"].
Proof.
  split; [reflexivity |]. split; [reflexivity |].
  destruct (C1_one_request_one_print grid_world "grid.png" grid_prompt
              (VStr "sk-live") png_bytes 1 (completion "17") "17")
    as (_ & _ & _ & _ & Hone & _ & _ & Hline & _);
    [reflexivity | reflexivity | reflexivity
    | apply response_content_first; reflexivity | reflexivity |].
  split; [apply Hone; reflexivity | apply Hline; reflexivity].
Defined.

(** A two-line answer is printed as two lines.  A service that is rate
    limited once is sent two requests before the answer is printed.  On
    an ASCII-only standard output an accented answer is not printed at
    all. *)
Lemma C1_counterexample :
  (fs (sample_world "grid.png" "sk-live" two_line_answer) "grid.png"
   = Regular png_bytes
   /\ response_content (completion two_line_answer)
      = Return (PStr two_line_answer)
   /\ snd (invoke (sample_world "grid.png" "sk-live" two_line_answer)
             "grid.png" grid_prompt (VStr "sk-live")) = Return tt
   /\ lines (stdout_of
               (fst (invoke (sample_world "grid.png" "sk-live" two_line_answer)
                       "grid.png" grid_prompt (VStr "sk-live"))))
      = ["17"; "18"]
   /\ lines (stdout_of
               (fst (invoke (sample_world "grid.png" "sk-live" two_line_answer)
                       "grid.png" grid_prompt (VStr "sk-live"))))
      <> [two_line_answer])
  /\ (fs (busy_world "grid.png" 1) "grid.png" = Regular png_bytes
      /\ snd (invoke (busy_world "grid.png" 1) "grid.png" grid_prompt
                (VStr "sk-live")) = Return tt
      /\ requests_of (fst (invoke (busy_world "grid.png" 1) "grid.png"
                             grid_prompt (VStr "sk-live")))
         = [build_request grid_prompt (encoded_payload png_bytes);
            build_request grid_prompt (encoded_payload png_bytes)])
  /\ (fs (ascii_stdout_world "grid.png" "sk-live" accented_answer) "grid.png"
      = Regular png_bytes
      /\ response_content (completion accented_answer)
         = Return (PStr accented_answer)
      /\ snd (invoke (ascii_stdout_world "grid.png" "sk-live" accented_answer)
                "grid.png" grid_prompt (VStr "sk-live"))
         = Raise UnicodeEncodeError
      /\ stdout_of
           (fst (invoke (ascii_stdout_world "grid.png" "sk-live" accented_answer)
                   "grid.png" grid_prompt (VStr "sk-live"))) = "").
Proof.
  split; [|split].
  - split; [reflexivity |]. split; [reflexivity |].
    split; [vm_compute; reflexivity |].
    split; [vm_compute; reflexivity |].
    vm_compute. discriminate.
  - split; [reflexivity |]. split; vm_compute; reflexivity.
  - split; [reflexivity |]. split; [reflexivity |].
    split; vm_compute; reflexivity.
Qed.

Lemma C2_witness :
  (forall data, fs grid_world "missing.png" <> Regular data)
  /\ payloads_of (fst (invoke grid_world "missing.png" grid_prompt
                         (VStr "sk-live"))) = []
  /\ exists e,
       snd (invoke grid_world "missing.png" grid_prompt (VStr "sk-live"))
       = Raise e
       /\ classify e = FileAccess.
Proof.
  assert (H : forall data, fs grid_world "missing.png" <> Regular data)
    by (intros data; discriminate).
  split; [exact H |].
  destruct (C2_missing_file_fails_first grid_world "missing.png" grid_prompt
              (VStr "sk-live") H) as (_ & Hp & _ & _ & He).
  split; [exact Hp |].
  destruct (He eq_refl) as (e & Hr & _ & Hos).
  exists e. split; [exact Hr |].
  apply Hos. discriminate.
Defined.

(** A path holding a NUL makes [open] raise [ValueError], which is no
    [OSError]; and with the empty key the constructor raises before the
    file is looked at. *)
Lemma C2_counterexample :
  ((forall data, fs grid_world nul_path <> Regular data)
   /\ invoke grid_world nul_path grid_prompt (VStr "sk-live")
      = ([EvClient (VStr "sk-live"); EvOpen nul_path false], Raise ValueError)
   /\ classify ValueError <> FileAccess)
  /\ ((forall data, fs grid_world "missing.png" <> Regular data)
      /\ invoke grid_world "missing.png" grid_prompt (VStr "")
         = ([EvClient (VStr "")], Raise OpenAIError)
      /\ classify OpenAIError <> FileAccess).
Proof.
  split.
  - split; [intros data; discriminate |].
    split; [vm_compute; reflexivity | discriminate].
  - split; [intros data; discriminate |].
    split; [vm_compute; reflexivity | discriminate].
Qed.

Lemma C3_witness :
  fs grid_world "grid.png" = Regular png_bytes
  /\ exists payload,
       payloads_of (fst (invoke grid_world "grid.png" grid_prompt
                           (VStr "sk-live")))
       = [build_request grid_prompt payload]
       /\ Base64.b64decode (list_byte_of_string payload) = Some png_bytes.
Proof.
  split; [reflexivity |].
  destruct (C3_payload_roundtrip grid_world "grid.png" grid_prompt
              (VStr "sk-live") png_bytes) as (p & Hp & _ & Hd);
    [reflexivity | reflexivity |].
  exists p. split; [exact Hp | exact Hd].
Defined.

Lemma C4_witness :
  fs grid_world "grid.png" = Regular png_bytes
  /\ exists req,
       payloads_of (fst (invoke grid_world "grid.png" grid_prompt
                           (VStr "sk-live"))) = [req]
       /\ image_parts req = ["data:image/jpeg;base64,iVBORw0KGgo="].
Proof.
  split; [reflexivity |].
  destruct (C4_data_uri_declares_jpeg grid_world "grid.png" grid_prompt
              (VStr "sk-live") png_bytes) as (req & Hreq & _ & _ & Hparts);
    [reflexivity | reflexivity |].
  exists req. split; [exact Hreq | exact Hparts].
Defined.

Lemma C5_witness :
  main_globals !! "OPENAI_API_KEY" = None
  /\ ("OPENAI_API_KEY" ∉ builtin script_world)
  /\ snd (run_script script_world main_globals)
     = Raise (NameError "OPENAI_API_KEY")
  /\ script_trace script_world main_globals = [].
Proof.
  assert (Hb : "OPENAI_API_KEY" ∉ builtin script_world)
    by (apply (proj1 (bool_decide_eq_false _)); vm_compute; reflexivity).
  split; [reflexivity |]. split; [exact Hb |].
  destruct (C5_module_raises_name_error script_world main_globals)
    as (Hrun & _ & Ht & _);
    [reflexivity | reflexivity | reflexivity | exact Hb |].
  split; [rewrite Hrun; reflexivity | exact Ht].
Defined.

(** Run as it stands, the script issues no request even though the file
    is there.  With the credential injected, a missing file still means
    no request.  With the credential injected and the file there, a
    service that stays rate limited is sent three requests in the one
    run. *)
Lemma C6_counterexample :
  length (requests_of (script_trace script_world main_globals)) = 0%nat
  /\ (fs grid_world "claude-2-result-2.png" = NoOpen (OSErr FileNotFound)
      /\ length (requests_of (script_trace grid_world configured_globals))
         = 0%nat)
  /\ (fs (busy_world "claude-2-result-2.png" 3) "claude-2-result-2.png"
      = Regular png_bytes
      /\ length (requests_of
                   (script_trace (busy_world "claude-2-result-2.png" 3)
                      configured_globals)) = 3%nat).
Proof.
  split; [vm_compute; reflexivity |].
  split; [split; [reflexivity | vm_compute; reflexivity] |].
  split; [reflexivity | vm_compute; reflexivity].
Qed.

Lemma C6_witness :
  configured_globals !! "OPENAI_API_KEY" = Some (VStr "sk-live")
  /\ fs script_world "claude-2-result-2.png" = Regular png_bytes
  /\ length (payloads_of (script_trace script_world configured_globals))
     = 1%nat
  /\ length (requests_of (script_trace script_world configured_globals))
     = 1%nat.
Proof.
  split; [reflexivity |]. split; [reflexivity |].
  destruct (proj2 (proj2 (C6_at_most_one_request script_world
                            configured_globals))
              (VStr "sk-live") png_bytes) as (Hpay & _ & Hone);
    [reflexivity | reflexivity | reflexivity | reflexivity | reflexivity |].
  split; [exact Hpay | apply Hone; reflexivity].
Defined.

(** A service that stays rate limited: the error reaches the caller
    only after the client has sent the request three times. *)
Lemma C7_counterexample :
  fs (busy_world "grid.png" 3) "grid.png" = Regular png_bytes
  /\ snd (invoke (busy_world "grid.png" 3) "grid.png" grid_prompt
            (VStr "sk-live"))
     = Raise (APIError RateLimit)
  /\ requests_of (fst (invoke (busy_world "grid.png" 3) "grid.png" grid_prompt
                         (VStr "sk-live")))
     = [build_request grid_prompt (encoded_payload png_bytes);
        build_request grid_prompt (encoded_payload png_bytes);
        build_request grid_prompt (encoded_payload png_bytes)].
Proof.
  split; [reflexivity |]. split; vm_compute; reflexivity.
Qed.

Lemma C7_witness :
  step_raises grid_world "grid.png" grid_prompt (VStr "sk-stale")
    AuthenticationError
  /\ snd (invoke grid_world "grid.png" grid_prompt (VStr "sk-stale"))
     = Raise AuthenticationError.
Proof.
  assert (H : step_raises grid_world "grid.png" grid_prompt (VStr "sk-stale")
                AuthenticationError)
    by (apply (remote_raises _ _ _ _ png_bytes 1); reflexivity).
  split; [exact H |].
  exact (proj1 (C7_errors_propagate grid_world "grid.png" grid_prompt
                  (VStr "sk-stale") AuthenticationError H)).
Defined.

Lemma C8_witness :
  (forall e, fs grid_world "grid.png" <> NoOpen e)
  /\ firstn 4 (fst (invoke grid_world "grid.png" grid_prompt (VStr "sk-live")))
     = [EvClient (VStr "sk-live"); EvOpen "grid.png" true; EvRead; EvClose]
  /\ handles_open 0
       (fst (invoke grid_world "grid.png" grid_prompt (VStr "sk-live")))
     = 0%nat.
Proof.
  assert (H : forall e, fs grid_world "grid.png" <> NoOpen e)
    by (intros e; discriminate).
  split; [exact H |].
  destruct (C8_handle_scoped grid_world "grid.png" grid_prompt (VStr "sk-live"))
    as (Hend & _ & Hstart).
  split; [exact (Hstart eq_refl H) | exact Hend].
Defined.

Lemma C9_witness :
  fs grid_world "grid.png" = Regular png_bytes
  /\ remote grid_world (VStr "sk-stale")
       (build_request grid_prompt (encoded_payload png_bytes)) 0
     = inl AuthenticationError
  /\ snd (invoke grid_world "grid.png" grid_prompt (VStr "sk-stale"))
     = Raise AuthenticationError
  /\ stdout_of (fst (invoke grid_world "grid.png" grid_prompt (VStr "sk-stale")))
     = "".
Proof.
  split; [reflexivity |]. split; [reflexivity |].
  destruct (C9_rejected_credential grid_world "grid.png" grid_prompt
              (VStr "sk-stale") png_bytes) as (Hrun & _ & _ & Hout);
    [reflexivity | reflexivity | reflexivity |].
  split; [rewrite Hrun; reflexivity | exact Hout].
Defined.

Lemma C10_witness :
  In (EvRequest (VStr "sk-live")
        (build_request grid_prompt (encoded_payload png_bytes)))
     (fst (invoke grid_world "grid.png" grid_prompt (VStr "sk-live")))
  /\ model (build_request grid_prompt (encoded_payload png_bytes))
     = "gpt-4.1-mini-2025-04-14".
Proof.
  assert (H : In (EvRequest (VStr "sk-live")
                    (build_request grid_prompt (encoded_payload png_bytes)))
                 (fst (invoke grid_world "grid.png" grid_prompt
                         (VStr "sk-live"))))
    by (vm_compute; tauto).
  split; [exact H |].
  exact (proj1 (proj2 (C10_request_shape grid_world "grid.png" grid_prompt
                         (VStr "sk-live") _ _ H))).
Defined.

(** * Further properties of [analyze_image] and of the module body *)

(** ** Where exceptions come from, and when output appears *)

(** X1.  [analyze_image] raises nothing of its own: an exception that
    leaves an invocation was raised by the client constructor, by opening
    or reading the file, by the [create] call, by the access to
    [choices[0].message.content], or by the print.  In particular the
    [decode('utf-8')] of the encoded bytes never fails. *)
Theorem X1_raises_only_from_steps
  (w : world) (path prompt : string) (key : value) (e : exn) :
  snd (invoke w path prompt key) = Raise e ->
  step_raises w path prompt key e.
Proof.
  rewrite invoke_run.
  destruct (client_error w key) as [ce |] eqn:Hclient.
  { cbn. intros [= <-]. apply client_raises. exact Hclient. }
  destruct (fs w path) as [e0 | e0 | data] eqn:Hfs.
  - cbn. intros [= <-]. apply open_raises; assumption.
  - cbn. intros [= <-]. apply read_raises; assumption.
  - cbv zeta.
    destruct (create_outcome w key (build_request prompt (encoded_payload data)))
      as [n [e0 | response]] eqn:Hcreate.
    + cbn. intros [= <-]. apply (remote_raises _ _ _ _ data n); assumption.
    + destruct (response_content response) as [c | e0] eqn:Hcontent.
      * destruct (stdout_accepts w (py_str w c +:+ LF)) eqn:Hout.
        -- cbn. discriminate.
        -- cbn. intros [= <-].
           apply (print_raises _ _ _ _ data n response c); assumption.
      * cbn. intros [= <-].
        apply (response_raises _ _ _ _ data n response); assumption.
Qed.

(** X2.  An invocation prints at most once; it prints exactly when it
    returns normally, and never without having issued a request. *)
Theorem X2_print_iff_return
  (w : world) (path prompt : string) (key : value) :
  (prints_of (fst (invoke w path prompt key)) <= 1)%nat
  /\ (snd (invoke w path prompt key) = Return tt
      <-> prints_of (fst (invoke w path prompt key)) = 1%nat)
  /\ (prints_of (fst (invoke w path prompt key))
      <= length (requests_of (fst (invoke w path prompt key))))%nat.
Proof.
  rewrite invoke_run.
  destruct (client_error w key) as [ce |];
    [cbn; repeat split; (lia || discriminate) |].
  destruct (fs w path) as [e | e | data];
    [cbn; repeat split; (lia || discriminate) ..|].
  cbv zeta.
  destruct (create_outcome w key _) as [n out] eqn:Hcreate.
  pose proof (create_outcome_bounds w _ _ _ _ Hcreate) as Hn.
  assert (Hsilent :
            forall e : exn,
              (prints_of (call_events path key
                            (build_request prompt (encoded_payload data)) n)
               <= 1)%nat
              /\ (@Raise unit e = Return tt
                  <-> prints_of (call_events path key
                                   (build_request prompt (encoded_payload data))
                                   n) = 1%nat)
              /\ (prints_of (call_events path key
                               (build_request prompt (encoded_payload data)) n)
                  <= length (requests_of
                               (call_events path key
                                  (build_request prompt (encoded_payload data))
                                  n)))%nat).
  { intros e.
    destruct (call_observed_alone path key
                (build_request prompt (encoded_payload data)) n)
      as (Hr & _ & _ & Hp & _).
    rewrite Hp, Hr. repeat split; (lia || discriminate). }
  destruct out as [e | response]; cbn [fst snd]; [apply Hsilent |].
  destruct (response_content response) as [c | e]; cbn [fst snd];
    [|apply Hsilent].
  destruct (stdout_accepts w _); cbn [fst snd]; [|apply Hsilent].
  destruct (call_observed_print path key
              (build_request prompt (encoded_payload data)) n
              (py_str w c +:+ LF)) as (Hr & _ & _ & Hp & _).
  rewrite Hp, Hr, repeat_length. repeat split; lia.
Qed.

(** X3.  When [choices[0].message.content] is [None], the invocation
    still returns normally and prints the one line [None]. *)
Theorem X3_none_content_printed
  (w : world) (path prompt : string) (key : value)
  (data : list byte) (n : nat) (response : pyval) :
  client_error w key = None ->
  fs w path = Regular data ->
  create_outcome w key (build_request prompt (encoded_payload data))
    = (n, inr response) ->
  response_content response = Return PNone ->
  snd (invoke w path prompt key) = Return tt
  /\ stdout_of (fst (invoke w path prompt key)) = "None" +:+ LF
  /\ lines (stdout_of (fst (invoke w path prompt key))) = ["None"].
Proof.
  intros Hclient Hfs Hcreate Hcontent.
  rewrite invoke_run, Hclient, Hfs. cbv zeta. rewrite Hcreate, Hcontent.
  cbn [py_str].
  assert (Hout : stdout_accepts w ("None" +:+ LF) = true) by reflexivity.
  rewrite Hout. cbn [fst snd].
  destruct (call_observed_print path key
              (build_request prompt (encoded_payload data)) n ("None" +:+ LF))
    as (_ & _ & Hstd & _).
  rewrite Hstd. repeat split.
Qed.

(** X4.  A response object whose [choices] is an empty list makes the
    invocation raise [IndexError] once the call has been made; nothing
    is printed. *)
Theorem X4_empty_choices
  (w : world) (path prompt : string) (key : value)
  (data : list byte) (n : nat) (attrs : list (string * pyval)) :
  client_error w key = None ->
  fs w path = Regular data ->
  create_outcome w key (build_request prompt (encoded_payload data))
    = (n, inr (PObj attrs)) ->
  assoc "choices" attrs = Some (PList []) ->
  invoke w path prompt key
  = (call_events path key (build_request prompt (encoded_payload data)) n,
     Raise IndexError).
Proof.
  intros Hclient Hfs Hcreate Hchoices.
  rewrite invoke_run, Hclient, Hfs. cbv zeta. rewrite Hcreate.
  unfold response_content, py_getattr. rewrite Hchoices. reflexivity.
Qed.

(** X5.  A response without a [choices] attribute -- an object that
    lacks it, or a value that is no object at all -- makes the invocation
    raise [AttributeError] for [choices] once the call has been made;
    nothing is printed. *)
Theorem X5_missing_choices
  (w : world) (path prompt : string) (key : value)
  (data : list byte) (n : nat) (response : pyval) :
  client_error w key = None ->
  fs w path = Regular data ->
  create_outcome w key (build_request prompt (encoded_payload data))
    = (n, inr response) ->
  (forall attrs, response = PObj attrs -> assoc "choices" attrs = None) ->
  invoke w path prompt key
  = (call_events path key (build_request prompt (encoded_payload data)) n,
     Raise (AttributeError "choices")).
Proof.
  intros Hclient Hfs Hcreate Hnone.
  rewrite invoke_run, Hclient, Hfs. cbv zeta. rewrite Hcreate.
  unfold response_content, py_getattr.
  destruct response as [| s | items | attrs]; try reflexivity.
  rewrite (Hnone attrs eq_refl). reflexivity.
Qed.

(** ** The encoded payload *)

Lemma length_b64encode (bs : list byte) :
  length (Base64.b64encode bs) = (4 * ((length bs + 2) / 3))%nat.
Proof.
  induction bs as [| a | a b | a b c rest IH] using Base64Roundtrip.list_ind3;
    [reflexivity | reflexivity | reflexivity |].
  cbn [Base64.b64encode length]. rewrite IH.
  replace (S (S (S (length rest))) + 2)%nat
    with ((length rest + 2) + 1 * 3)%nat by lia.
  rewrite Nat.div_add by lia. lia.
Qed.

Lemma length_string_of_list_byte (bs : list byte) :
  String.length (string_of_list_byte bs) = length bs.
Proof.
  induction bs as [|b bs IH]; [reflexivity|].
  change (string_of_list_byte (b :: bs))
    with (String (ascii_of_byte b) (string_of_list_byte bs)).
  cbn [String.length]. rewrite IH. reflexivity.
Qed.

Lemma append_inj_l (a x y : string) : a +:+ x = a +:+ y -> x = y.
Proof.
  induction a as [|c a IH]; [intros H; exact H|].
  rewrite !append_cons. intros [= H]. apply IH, H.
Qed.

Lemma encoded_payload_inj (d1 d2 : list byte) :
  encoded_payload d1 = encoded_payload d2 -> d1 = d2.
Proof.
  unfold encoded_payload. intros H.
  apply (f_equal list_byte_of_string) in H.
  rewrite !list_byte_of_string_of_list_byte in H.
  apply (f_equal Base64.b64decode) in H.
  rewrite !Base64Roundtrip.b64_roundtrip in H.
  congruence.
Qed.

Lemma requests_sent w path prompt key data :
  client_error w key = None ->
  fs w path = Regular data ->
  exists n,
    requests_of (fst (invoke w path prompt key))
    = build_request prompt (encoded_payload data)
      :: repeat (build_request prompt (encoded_payload data)) n.
Proof.
  intros Hclient Hfs.
  destruct (requests_of_readable w path prompt key data Hclient Hfs)
    as [_ Hreqs].
  rewrite Hreqs.
  pose proof (attempts_bounds w key
                (build_request prompt (encoded_payload data))
                max_retries 0%nat) as Hb.
  unfold create_outcome.
  destruct (fst (attempts w key _ 0 max_retries)) as [|n]; [lia |].
  exists n. reflexivity.
Qed.

Lemma nothing_sent w path prompt key :
  (forall data, fs w path <> Regular data) ->
  requests_of (fst (invoke w path prompt key)) = []
  /\ payloads_of (fst (invoke w path prompt key)) = [].
Proof.
  intros Hnot. rewrite invoke_run.
  destruct (client_error w key) as [ce |]; [split; reflexivity |].
  destruct (fs w path) as [e | e | data];
    [split; reflexivity | split; reflexivity |].
  exfalso. apply (Hnot data). reflexivity.
Qed.

(** X6.  The base64 text of a file of [n] bytes has [4 * ceil(n / 3)]
    characters, so the URL of the image part of the request built has 23
    more: the length of the [data:image/jpeg;base64,] prefix. *)
Theorem X6_payload_length
  (w : world) (path prompt : string) (key : value) (data : list byte) :
  client_error w key = None ->
  fs w path = Regular data ->
  String.length (encoded_payload data) = (4 * ((length data + 2) / 3))%nat
  /\ exists req url,
       payloads_of (fst (invoke w path prompt key)) = [req]
       /\ image_parts req = [url]
       /\ String.length url = (23 + 4 * ((length data + 2) / 3))%nat.
Proof.
  intros Hclient Hfs.
  assert (Hlen : String.length (encoded_payload data)
                 = (4 * ((length data + 2) / 3))%nat).
  { unfold encoded_payload.
    rewrite length_string_of_list_byte. apply length_b64encode. }
  split; [exact Hlen |].
  exists (build_request prompt (encoded_payload data)),
         (data_uri (encoded_payload data)).
  split; [apply (requests_of_readable w path prompt key data Hclient Hfs) |].
  split; [reflexivity |].
  rewrite <- Hlen. reflexivity.
Qed.

(** X7.  The request determines the image and the prompt: two
    invocations on readable files that submit equal requests were given
    the same prompt and read the same bytes. *)
Theorem X7_request_determines_input
  (w1 w2 : world) (path1 path2 prompt1 prompt2 : string) (key1 key2 : value)
  (data1 data2 : list byte) :
  client_error w1 key1 = None ->
  client_error w2 key2 = None ->
  fs w1 path1 = Regular data1 ->
  fs w2 path2 = Regular data2 ->
  requests_of (fst (invoke w1 path1 prompt1 key1))
  = requests_of (fst (invoke w2 path2 prompt2 key2)) ->
  prompt1 = prompt2 /\ data1 = data2.
Proof.
  intros Hc1 Hc2 Hfs1 Hfs2.
  destruct (requests_sent w1 path1 prompt1 key1 data1 Hc1 Hfs1) as [n1 ->].
  destruct (requests_sent w2 path2 prompt2 key2 data2 Hc2 Hfs2) as [n2 ->].
  unfold build_request, data_uri. intros [= Hprompt Hurl _].
  split; [exact Hprompt |].
  apply encoded_payload_inj, (append_inj_l _ _ _ Hurl).
Qed.

(** X8.  An empty file is not rejected: the request is still built and
    sent, and the URL of its image part is the bare prefix.  No other
    file encodes to the empty text. *)
Theorem X8_empty_file
  (w : world) (path prompt : string) (key : value) :
  client_error w key = None ->
  fs w path = Regular [] ->
  payloads_of (fst (invoke w path prompt key)) = [build_request prompt ""]
  /\ (exists n,
        requests_of (fst (invoke w path prompt key))
        = build_request prompt "" :: repeat (build_request prompt "") n)
  /\ image_parts (build_request prompt "") = ["data:image/jpeg;base64,"]
  /\ (forall data, encoded_payload data = "" -> data = []).
Proof.
  intros Hclient Hfs. split; [|split; [|split]].
  - apply (requests_of_readable w path prompt key [] Hclient Hfs).
  - apply (requests_sent w path prompt key [] Hclient Hfs).
  - reflexivity.
  - intros data H. apply encoded_payload_inj. exact H.
Qed.

(** X9.  The request does not depend on the credential: invocations
    that differ only in the key, both keys being accepted by the client,
    build the same payload, and every request either of them sends is
    that payload. *)
Theorem X9_request_independent_of_key
  (w : world) (path prompt : string) (key1 key2 : value) :
  client_error w key1 = None ->
  client_error w key2 = None ->
  payloads_of (fst (invoke w path prompt key1))
  = payloads_of (fst (invoke w path prompt key2))
  /\ (forall r,
        In r (requests_of (fst (invoke w path prompt key1))) ->
        In r (payloads_of (fst (invoke w path prompt key2)))).
Proof.
  intros Hc1 Hc2.
  destruct (fs w path) as [e | e | data] eqn:Hfs.
  - assert (Hnot : forall data, fs w path <> Regular data)
      by (intros data; rewrite Hfs; discriminate).
    destruct (nothing_sent w path prompt key1 Hnot) as [-> ->].
    destruct (nothing_sent w path prompt key2 Hnot) as [_ ->].
    split; [reflexivity | intros r []].
  - assert (Hnot : forall data, fs w path <> Regular data)
      by (intros data; rewrite Hfs; discriminate).
    destruct (nothing_sent w path prompt key1 Hnot) as [-> ->].
    destruct (nothing_sent w path prompt key2 Hnot) as [_ ->].
    split; [reflexivity | intros r []].
  - destruct (requests_of_readable w path prompt key1 data Hc1 Hfs)
      as [-> ->].
    destruct (requests_of_readable w path prompt key2 data Hc2 Hfs)
      as [-> _].
    split; [reflexivity |].
    intros r Hin. apply repeat_spec in Hin. left. symmetry. exact Hin.
Qed.

(** X10.  An invocation issues no request exactly when the client
    refuses the key or the image path does not name a readable file. *)
Theorem X10_no_request_iff_unreadable
  (w : world) (path prompt : string) (key : value) :
  requests_of (fst (invoke w path prompt key)) = []
  <-> (exists ce, client_error w key = Some ce)
      \/ (forall data, fs w path <> Regular data).
Proof.
  split.
  - intros Hnone.
    destruct (client_error w key) as [ce |] eqn:Hclient;
      [left; exists ce; reflexivity |].
    right. intros data Hfs.
    destruct (requests_sent w path prompt key data Hclient Hfs) as [n Hreqs].
    rewrite Hreqs in Hnone. discriminate.
  - intros [[ce Hclient] | Hnot].
    + rewrite invoke_run, Hclient. reflexivity.
    + apply (nothing_sent w path prompt key Hnot).
Qed.

(** ** Printed lines *)

Lemma lines_count (s : string) :
  length (lines (s +:+ LF)) = S (count_newlines s).
Proof.
  induction s as [|c s IH]; [reflexivity|].
  rewrite append_cons. cbn [lines count_newlines].
  destruct (is_newline c).
  - cbn [length]. rewrite IH. reflexivity.
  - destruct (lines (s +:+ LF)) as [|l ls]; [discriminate IH | exact IH].
Qed.

(** X11.  When the content is a string that standard output can encode,
    the number of lines an invocation prints is one more than the number
    of line breaks in that string. *)
Theorem X11_printed_line_count
  (w : world) (path prompt : string) (key : value)
  (data : list byte) (n : nat) (response : pyval) (s : string) :
  client_error w key = None ->
  fs w path = Regular data ->
  create_outcome w key (build_request prompt (encoded_payload data))
    = (n, inr response) ->
  response_content response = Return (PStr s) ->
  stdout_accepts w (s +:+ LF) = true ->
  length (lines (stdout_of (fst (invoke w path prompt key))))
  = S (count_newlines s).
Proof.
  intros Hclient Hfs Hcreate Hcontent Hout.
  rewrite invoke_run, Hclient, Hfs. cbv zeta. rewrite Hcreate, Hcontent.
  cbn [py_str]. rewrite Hout. cbn [fst].
  destruct (call_observed_print path key
              (build_request prompt (encoded_payload data)) n (s +:+ LF))
    as (_ & _ & Hstd & _).
  rewrite Hstd. apply lines_count.
Qed.

(** ** Invocations inside a program run *)

(** X12.  [analyze_image] keeps no state between calls and touches no
    global name: from any earlier state it leaves the namespace as it
    was, appends the events of a fresh invocation to the trace, and ends
    as the fresh invocation does. *)
Theorem X12_invocation_frame
  (w : world) (path prompt : string) (key : value) (st : state) :
  globals (fst (analyze_image w path prompt key st)) = globals st
  /\ trace (fst (analyze_image w path prompt key st))
     = trace st ++ fst (invoke w path prompt key)
  /\ snd (analyze_image w path prompt key st) = snd (invoke w path prompt key).
Proof.
  rewrite analyze_image_frame. repeat split.
Qed.

(** X13.  When both imports succeed and [OPENAI_API_KEY] is bound as a
    global at the time the [def] runs, a program run is exactly one
    invocation of [analyze_image] on the file [claude-2-result-2.png],
    with the prompt built for the target [submit text button] and with
    the value the name had at the [def] as the key; the module ends with
    the five names it binds added to the namespace. *)
Theorem X13_run_is_one_invocation
  (w : world) (g0 : gmap string value) (k : value) :
  installed w "openai" = true ->
  installed w "base64" = true ->
  g0 !! "OPENAI_API_KEY" = Some k ->
  run_script w g0
  = ({| globals := defined g0 k;
        trace := fst (invoke w script_image (quadrant_input target) k) |},
     snd (invoke w script_image (quadrant_input target) k)).
Proof.
  intros Ho Hb Hg. exact (run_script_invocation w g0 k Ho Hb Hg).
Qed.


(** ** The further properties at concrete inputs *)

Lemma X1_witness :
  snd (invoke grid_world "grid.png" grid_prompt (VStr "sk-stale"))
  = Raise AuthenticationError
  /\ step_raises grid_world "grid.png" grid_prompt (VStr "sk-stale")
       AuthenticationError.
Proof.
  assert (H : snd (invoke grid_world "grid.png" grid_prompt (VStr "sk-stale"))
              = Raise AuthenticationError) by (vm_compute; reflexivity).
  split; [exact H |].
  exact (X1_raises_only_from_steps grid_world "grid.png" grid_prompt
           (VStr "sk-stale") AuthenticationError H).
Defined.

Lemma X3_witness :
  response_content none_completion = Return PNone
  /\ lines (stdout_of
              (fst (invoke (answering_world "grid.png" png_bytes
                              (inr none_completion))
                      "grid.png" grid_prompt (VStr "sk-live"))))
     = ["None"].
Proof.
  split; [reflexivity |].
  destruct (X3_none_content_printed
              (answering_world "grid.png" png_bytes (inr none_completion))
              "grid.png" grid_prompt (VStr "sk-live") png_bytes 1
              none_completion)
    as (_ & _ & Hlines);
    [reflexivity | reflexivity | reflexivity | reflexivity |].
  exact Hlines.
Defined.

Lemma X4_witness :
  assoc "choices" empty_completion = Some (PList [])
  /\ snd (invoke (answering_world "grid.png" png_bytes
                    (inr (PObj empty_completion)))
            "grid.png" grid_prompt (VStr "sk-live"))
     = Raise IndexError.
Proof.
  split; [reflexivity |].
  rewrite (X4_empty_choices
             (answering_world "grid.png" png_bytes (inr (PObj empty_completion)))
             "grid.png" grid_prompt (VStr "sk-live") png_bytes 1
             empty_completion);
    reflexivity.
Defined.

Lemma X5_witness :
  snd (invoke (answering_world "grid.png" png_bytes (inr error_body))
         "grid.png" grid_prompt (VStr "sk-live"))
  = Raise (AttributeError "choices").
Proof.
  rewrite (X5_missing_choices
             (answering_world "grid.png" png_bytes (inr error_body))
             "grid.png" grid_prompt (VStr "sk-live") png_bytes 1 error_body);
    [reflexivity | reflexivity | reflexivity | reflexivity |].
  intros attrs [= <-]. reflexivity.
Defined.

Lemma X6_witness :
  fs grid_world "grid.png" = Regular png_bytes
  /\ String.length (encoded_payload png_bytes) = 12%nat.
Proof.
  split; [reflexivity |].
  exact (proj1 (X6_payload_length grid_world "grid.png" grid_prompt
                  (VStr "sk-live") png_bytes eq_refl eq_refl)).
Defined.

Lemma X7_witness :
  fs grid_world "grid.png" = Regular png_bytes
  /\ fs script_world script_image = Regular png_bytes
  /\ grid_prompt = grid_prompt /\ png_bytes = png_bytes.
Proof.
  split; [reflexivity |]. split; [reflexivity |].
  apply (X7_request_determines_input grid_world script_world
           "grid.png" script_image grid_prompt grid_prompt
           (VStr "sk-live") (VStr "sk-stale") png_bytes png_bytes);
    reflexivity.
Defined.

Lemma X8_witness :
  fs (answering_world "empty.png" [] (inr (completion "17"))) "empty.png"
  = Regular []
  /\ payloads_of
       (fst (invoke (answering_world "empty.png" [] (inr (completion "17")))
               "empty.png" grid_prompt (VStr "sk-live")))
     = [build_request grid_prompt ""].
Proof.
  split; [reflexivity |].
  exact (proj1 (X8_empty_file
                  (answering_world "empty.png" [] (inr (completion "17")))
                  "empty.png" grid_prompt (VStr "sk-live") eq_refl eq_refl)).
Defined.

Lemma X9_witness :
  client_error grid_world (VStr "sk-live") = None
  /\ client_error grid_world (VStr "sk-stale") = None
  /\ payloads_of (fst (invoke grid_world "grid.png" grid_prompt
                         (VStr "sk-live")))
     = payloads_of (fst (invoke grid_world "grid.png" grid_prompt
                           (VStr "sk-stale"))).
Proof.
  split; [reflexivity |]. split; [reflexivity |].
  exact (proj1 (X9_request_independent_of_key grid_world "grid.png"
                  grid_prompt (VStr "sk-live") (VStr "sk-stale")
                  eq_refl eq_refl)).
Defined.

Lemma X10_witness :
  client_error grid_world (VStr "") = Some OpenAIError
  /\ fs grid_world "grid.png" = Regular png_bytes
  /\ requests_of (fst (invoke grid_world "grid.png" grid_prompt (VStr "")))
     = [].
Proof.
  split; [reflexivity |]. split; [reflexivity |].
  apply (proj2 (X10_no_request_iff_unreadable grid_world "grid.png"
                  grid_prompt (VStr ""))).
  left. exists OpenAIError. reflexivity.
Defined.

Lemma X11_witness :
  response_content (completion two_line_answer) = Return (PStr two_line_answer)
  /\ length (lines (stdout_of
                      (fst (invoke
                              (sample_world "grid.png" "sk-live" two_line_answer)
                              "grid.png" grid_prompt (VStr "sk-live")))))
     = 2%nat.
Proof.
  split; [reflexivity |].
  rewrite (X11_printed_line_count
             (sample_world "grid.png" "sk-live" two_line_answer)
             "grid.png" grid_prompt (VStr "sk-live") png_bytes 1
             (completion two_line_answer) two_line_answer);
    reflexivity.
Defined.

Lemma X13_witness :
  configured_globals !! "OPENAI_API_KEY" = Some (VStr "sk-live")
  /\ snd (run_script script_world configured_globals) = Return tt
  /\ stdout_of (script_trace script_world configured_globals) = "17" +:+ LF.
Proof.
  split; [reflexivity |].
  unfold script_trace.
  rewrite (X13_run_is_one_invocation script_world configured_globals
             (VStr "sk-live") eq_refl eq_refl eq_refl).
  split; vm_compute; reflexivity.
Defined.

